(** * Room-availability ingestion pipeline of [scrape.py]

    A shallow embedding of the three functions of [scrape.py]
    ([fetch_single_room_availability], [fetch_all_rooms_availability],
    [store_availability_to_db]) and of its entry point, together with the
    Python values they handle, and the properties the specification states
    about them. *)

From stdpp Require Import base option list gmap strings pretty.

Set Warnings "-register-all".

Open Scope string_scope.
Open Scope list_scope.
Open Scope Z_scope.

(** ** Exceptions

    Only subclasses of Python's [Exception] are modelled; an exception value
    carries its class and the text [str(e)] that the handlers print. *)

Inductive exn_class :=
  | RequestException      (* requests: connection error, timeout, HTTPError *)
  | RequestsJSONDecodeError (* requests >= 2.27: both of the two below *)
  | JSONDecodeError       (* json.JSONDecodeError, a ValueError *)
  | AttributeError
  | TypeError
  | KeyError
  | ValueError
  | OverflowError
  | DatabaseError         (* sqlite3.Error and its subclasses *)
  | OtherException.

Record exn := Exn { exn_cls : exn_class; exn_msg : string }.

(** [isinstance(e, requests.exceptions.RequestException)]. *)
Definition is_request_exception (c : exn_class) : bool :=
  match c with
  | RequestException | RequestsJSONDecodeError => true
  | _ => false
  end.

(** [isinstance(e, json.JSONDecodeError)]. *)
Definition is_json_decode_error (c : exn_class) : bool :=
  match c with
  | JSONDecodeError | RequestsJSONDecodeError => true
  | _ => false
  end.

(** [isinstance(e, KeyError)] and [isinstance(e, ValueError)]. *)
Definition is_key_error (c : exn_class) : bool :=
  match c with KeyError => true | _ => false end.

Definition is_value_error (c : exn_class) : bool :=
  match c with
  | ValueError | JSONDecodeError | RequestsJSONDecodeError => true
  | _ => false
  end.

(** The result of evaluating Python code: a value, or a raised exception. *)
Inductive res (A : Type) :=
  | Ret (a : A)
  | Raise (e : exn).
Arguments Ret {A} a.
Arguments Raise {A} e.

#[global] Instance res_ret : MRet res := fun A a => Ret a.

#[global] Instance res_bind : MBind res := fun A B k m =>
  match m with
  | Ret a => k a
  | Raise e => Raise e
  end.

(** ** The conversions of the Python runtime

    [float(...)] and [int(...)] on strings, and the float type itself, belong
    to the interpreter; the pipeline is modelled over any implementation of
    them.  [None] stands for the exception named in the comment. *)

Class PyRuntime := {
  pyfloat : Type;
  float_of_str : string → option pyfloat;   (* None: ValueError *)
  float_of_int : Z → option pyfloat;        (* None: OverflowError *)
  int_of_str : string → option Z;           (* None: ValueError *)
  int_of_float : pyfloat → res Z;           (* nan: ValueError; inf: OverflowError *)
}.

Section Model.
Context `{RT : PyRuntime}.

(** ** Python values, as produced by [json.load] / [response.json()] *)

Inductive pyval :=
  | PyNone
  | PyBool (b : bool)
  | PyInt (z : Z)
  | PyFloat (f : pyfloat)
  | PyStr (s : string)
  | PyList (l : list pyval)
  | PyDict (m : gmap string pyval).

Definition type_name (v : pyval) : string :=
  match v with
  | PyNone => "NoneType"
  | PyBool _ => "bool"
  | PyInt _ => "int"
  | PyFloat _ => "float"
  | PyStr _ => "str"
  | PyList _ => "list"
  | PyDict _ => "dict"
  end.

(** [o.get(k, default)]: only dictionaries have the method. *)
Definition py_get (o : pyval) (k : string) (dflt : pyval) : res pyval :=
  match o with
  | PyDict m => Ret (default dflt (m !! k))
  | _ => Raise (Exn AttributeError
                  ("'" +:+ type_name o +:+ "' object has no attribute 'get'"))
  end.

(** [iter(o)], with the elements listed in iteration order: a list yields
    its elements, a string its one-character substrings, a dictionary its
    keys; anything else is not iterable. *)
Fixpoint chars (s : string) : list pyval :=
  match s with
  | EmptyString => []
  | String c s' => PyStr (String c EmptyString) :: chars s'
  end.

Definition py_iter (o : pyval) : res (list pyval) :=
  match o with
  | PyList l => Ret l
  | PyStr s => Ret (chars s)
  | PyDict m => Ret (PyStr <$> (map_to_list m).*1)
  | _ => Raise (Exn TypeError ("'" +:+ type_name o +:+ "' object is not iterable"))
  end.

(** [a != b] where [b] is a string literal. *)
Definition py_ne_str (a : pyval) (b : string) : bool :=
  match a with
  | PyStr s => negb (String.eqb s b)
  | _ => true
  end.

(** ** Records, log lines *)

(** An availability record is the dictionary built at [scrape.py:46-54]. *)
Abbreviation record := (gmap string pyval).

(** What [print] writes.  The one message that embeds the [repr] of a
    dictionary keeps the dictionary itself. *)
Inductive log_line :=
  | Printed (text : string)
  | PrintedItemError (item : record) (e : exn).

(** ** [fetch_single_room_availability] *)

(** What the HTTP stack does with the request for one room: one of
    [requests.get], [raise_for_status] and [response.json()] raises, or the
    body decodes to a value. *)
Inductive reply :=
  | Fails (e : exn)
  | Body (data : pyval).

(** The dictionary literal appended for one item. *)
Definition make_record (space_id : Z) (date item : pyval) : res record :=
  event_name ← py_get item "itemName" (PyStr "N/A");
  time_start ← py_get item "start" (PyStr "N/A");
  time_end ← py_get item "end" (PyStr "N/A");
  status ← py_get item "type_id" (PyStr "N/A");
  additional_details ← py_get item "itemId2" (PyStr "N/A");
  mret (<["room_id" := PyInt space_id]>
       (<["date" := date]>
       (<["event_name" := event_name]>
       (<["time_start" := time_start]>
       (<["time_end" := time_end]>
       (<["status" := status]>
       (<["additional_details" := additional_details]> ∅))))))).

(** The inner loop, [for item in subject.get("items", [])]. *)
Fixpoint items_loop (space_id : Z) (date : pyval) (items : list pyval)
    (availability : list record) : res (list record) :=
  match items with
  | [] => mret availability
  | item :: rest =>
      r ← make_record space_id date item;
      items_loop space_id date rest (availability ++ [r])
  end.

(** The body of the outer loop for one subject. *)
Definition subject_body (space_id : Z) (subject : pyval)
    (availability : list record) : res (list record) :=
  date ← py_get subject "item_date" (PyStr "");
  its ← py_get subject "items" (PyList []);
  items ← py_iter its;
  items_loop space_id date items availability.

(** The outer loop, [for subject in data.get("subjects", [])]. *)
Fixpoint subjects_loop (space_id : Z) (subjects : list pyval)
    (availability : list record) : res (list record) :=
  match subjects with
  | [] => mret availability
  | subject :: rest =>
      availability' ← subject_body space_id subject availability;
      subjects_loop space_id rest availability'
  end.

(** Lines 41-55: the part of the [try] block that runs on the decoded body. *)
Definition parse_response (space_id : Z) (data : pyval) : res (list record) :=
  subs ← py_get data "subjects" (PyList []);
  subjects ← py_iter subs;
  subjects_loop space_id subjects [].

(** The three handlers, tried in the order of the [except] clauses. *)
Definition fetch_handler (space_id : Z) (e : exn) : log_line :=
  if is_request_exception (exn_cls e) then
    Printed ("Request error for room " +:+ pretty space_id +:+ ": " +:+ exn_msg e)
  else if is_json_decode_error (exn_cls e) then
    Printed ("JSON decode error for room " +:+ pretty space_id)
  else
    Printed ("Unexpected error for room " +:+ pretty space_id +:+ ": " +:+ exn_msg e).

(** The function returns a result (possibly an exception, as far as its type
    goes) and the lines it printed. *)
Definition fetch_single_room_availability (space_id : Z) (r : reply)
    : res (list record) * list log_line :=
  let attempt :=
    match r with
    | Fails e => Raise e
    | Body data => parse_response space_id data
    end in
  match attempt with
  | Ret availability => (Ret availability, [])
  | Raise e => (Ret [], [fetch_handler space_id e])
  end.

(** ** [store_availability_to_db] *)

(** [float(v)] and [int(v)]. *)
Definition py_float (v : pyval) : res pyfloat :=
  match v with
  | PyFloat f => Ret f
  | PyInt z =>
      match float_of_int z with
      | Some f => Ret f
      | None => Raise (Exn OverflowError "int too large to convert to float")
      end
  | PyBool b =>
      match float_of_int (if b then 1 else 0) with
      | Some f => Ret f
      | None => Raise (Exn OverflowError "int too large to convert to float")
      end
  | PyStr s =>
      match float_of_str s with
      | Some f => Ret f
      | None => Raise (Exn ValueError
                         ("could not convert string to float: '" +:+ s +:+ "'"))
      end
  | _ => Raise (Exn TypeError
                  ("float() argument must be a string or a real number, not '"
                   +:+ type_name v +:+ "'"))
  end.

Definition py_int (v : pyval) : res Z :=
  match v with
  | PyInt z => Ret z
  | PyBool b => Ret (if b then 1 else 0)
  | PyFloat f => int_of_float f
  | PyStr s =>
      match int_of_str s with
      | Some z => Ret z
      | None => Raise (Exn ValueError
                         ("invalid literal for int() with base 10: '" +:+ s +:+ "'"))
      end
  | _ => Raise (Exn TypeError
                  ("int() argument must be a string, a bytes-like object or a real number, not '"
                   +:+ type_name v +:+ "'"))
  end.

(** [item[k]]. *)
Definition py_index (item : record) (k : string) : res pyval :=
  match item !! k with
  | Some v => Ret v
  | None => Raise (Exn KeyError ("'" +:+ k +:+ "'"))
  end.

(** [conv(item[k]) if item[k] != "N/A" else None]. *)
Definition convert_unless_na {A} (conv : pyval → res A) (item : record)
    (k : string) : res (option A) :=
  c ← py_index item k;
  if py_ne_str c "N/A" then
    v ← py_index item k;
    a ← conv v;
    mret (Some a)
  else mret None.

(** The 7-tuple appended to [records]. *)
Record prepared := Prepared {
  p_room_id : pyval;
  p_date : pyval;
  p_event_name : pyval;
  p_time_start : option pyfloat;
  p_time_end : option pyfloat;
  p_status : option Z;
  p_additional_details : pyval;
}.

(** The body of the [try] at lines 139-153. *)
Definition coerce_item (item : record) : res prepared :=
  time_start ← convert_unless_na py_float item "time_start";
  time_end ← convert_unless_na py_float item "time_end";
  status ← convert_unless_na py_int item "status";
  room_id ← py_index item "room_id";
  date ← py_index item "date";
  event_name ← py_index item "event_name";
  additional_details ← py_index item "additional_details";
  mret (Prepared room_id date event_name time_start time_end status
          additional_details).

(** [except (KeyError, ValueError)]. *)
Definition store_catches (e : exn) : bool :=
  is_key_error (exn_cls e) || is_value_error (exn_cls e).

(** The loop at lines 137-155, with the lines it prints.  An exception the
    [except] clause does not name leaves the loop and the function. *)
Fixpoint prepare_loop (availability_data : list record)
    (records : list prepared) : res (list prepared) * list log_line :=
  match availability_data with
  | [] => (Ret records, [])
  | item :: rest =>
      match coerce_item item with
      | Ret t => prepare_loop rest (records ++ [t])
      | Raise e =>
          if store_catches e then
            let '(r, out) := prepare_loop rest records in
            (r, PrintedItemError item e :: out)
          else (Raise e, [])
      end
  end.

(** Values as SQLite stores them.  The conversions a column's declared
    affinity applies on storage are not modelled: a row holds the values as
    they were bound. *)
Inductive sqlval :=
  | SqlNull
  | SqlInt (z : Z)
  | SqlReal (f : pyfloat)
  | SqlText (s : string).

Record row := Row {
  row_id : Z;
  room_id : sqlval;
  date : sqlval;
  event_name : sqlval;
  time_start : sqlval;
  time_end : sqlval;
  status : sqlval;
  additional_details : sqlval;
}.

(** The table [room_availability] of [room_availability.db]; [None] when the
    table does not exist. *)
Definition database := option (list row).

(** How the [sqlite3] module binds a parameter. *)
Definition adapt_int (z : Z) : res sqlval :=
  if bool_decide (- 2 ^ 63 ≤ z < 2 ^ 63) then Ret (SqlInt z)
  else Raise (Exn OverflowError "Python int too large to convert to SQLite INTEGER").

Definition adapt (v : pyval) : res sqlval :=
  match v with
  | PyNone => Ret SqlNull
  | PyBool b => Ret (SqlInt (if b then 1 else 0))
  | PyInt z => adapt_int z
  | PyFloat f => Ret (SqlReal f)
  | PyStr s => Ret (SqlText s)
  | _ => Raise (Exn DatabaseError
                  ("Error binding parameter: type '" +:+ type_name v
                   +:+ "' is not supported"))
  end.

Definition adapt_float (o : option pyfloat) : sqlval :=
  match o with
  | None => SqlNull
  | Some f => SqlReal f
  end.

Definition adapt_status (o : option Z) : res sqlval :=
  match o with
  | None => Ret SqlNull
  | Some z => adapt_int z
  end.

(** One [INSERT]: the row gets the next key of the [AUTOINCREMENT] column. *)
Definition insert_row (key : Z) (t : prepared) : res row :=
  c1 ← adapt (p_room_id t);
  c2 ← adapt (p_date t);
  c3 ← adapt (p_event_name t);
  c6 ← adapt_status (p_status t);
  c7 ← adapt (p_additional_details t);
  mret (Row key c1 c2 c3 (adapt_float (p_time_start t))
          (adapt_float (p_time_end t)) c6 c7).

(** [cursor.executemany] on the freshly created table [rows]. *)
Fixpoint executemany (records : list prepared) (rows : list row)
    : res (list row) :=
  match records with
  | [] => mret rows
  | t :: rest =>
      r ← insert_row (Z.of_nat (length rows) + 1) t;
      executemany rest (rows ++ [r])
  end.

(** The function: its result, the table afterwards, the lines printed.
    [DROP TABLE] and [CREATE TABLE] take effect at once; the inserted rows
    persist only through [conn.commit()]. *)
Definition store_availability_to_db (availability_data : list record)
    (db : database) : res () * database * list log_line :=
  match availability_data with
  | [] => (Ret (), db, [Printed "No availability data to store."])
  | _ =>
      let created : database := Some [] in
      match prepare_loop availability_data [] with
      | (Raise e, out) => (Raise e, created, out)
      | (Ret [], out) => (Ret (), created, out ++ [Printed "No records to insert."])
      | (Ret records, out) =>
          match executemany records [] with
          | Ret rows =>
              (Ret (), Some rows,
               out ++ [Printed ("Inserted " +:+ pretty (length records)
                                +:+ " records into the database.")])
          | Raise e =>
              (Ret (), created,
               out ++ [Printed ("Error inserting records into the database: "
                                +:+ exn_msg e)])
          end
      end
  end.

(** ** [fetch_all_rooms_availability] *)

(** An entry of [room_ids.json], of the documented shape. *)
Record RoomRef := { id : Z; name : string }.

(** The loop over [as_completed(future_to_room)].  Task [i] is the call
    submitted for the [i]-th room, [net i] is what the network does to it, and
    [arrival] lists the tasks in the order in which they complete.  The
    lines of a task are printed by its worker thread when it runs: the list
    of lines tells which lines are printed, its order is that of [arrival]
    only by convention. *)
Fixpoint collect (room_ids : list RoomRef) (net : nat → reply)
    (arrival : list nat) (all_availability : list record)
    : list record * list log_line :=
  match arrival with
  | [] => (all_availability, [])
  | i :: rest =>
      match room_ids !! i with
      | None => collect room_ids net rest all_availability
      | Some room =>
          let '(outcome, printed) :=
            fetch_single_room_availability (id room) (net i) in
          match outcome with
          | Ret result =>
              let all_availability' :=
                match result with
                | [] => all_availability
                | _ => all_availability ++ result
                end in
              let '(batch, out) := collect room_ids net rest all_availability' in
              (batch, printed ++ out)
          | Raise e =>
              let '(batch, out) := collect room_ids net rest all_availability in
              (batch,
               printed
               ++ Printed ("Error fetching data for room " +:+ pretty (id room)
                           +:+ ": " +:+ exn_msg e) :: out)
          end
      end
  end.

Definition fetch_all_rooms_availability (room_ids : list RoomRef)
    (net : nat → reply) (arrival : list nat) (db : database)
    : res () * database * list log_line :=
  let '(all_availability, out1) := collect room_ids net arrival [] in
  let '(r, db', out2) := store_availability_to_db all_availability db in
  (r, db', out1 ++ out2).

(** ** The entry point *)

Inductive artifact :=
  | NotFound                              (* FileNotFoundError *)
  | Undecodable                           (* json.JSONDecodeError *)
  | Loaded (room_ids : list RoomRef).

Definition main (a : artifact) (net : nat → reply) (arrival : list nat)
    (db : database) : res () * database * list log_line :=
  let '(room_ids, out0) :=
    match a with
    | NotFound => ([], [Printed "The file 'room_ids.json' was not found."])
    | Undecodable =>
        ([], [Printed "Error decoding 'room_ids.json'. Ensure it is valid JSON."])
    | Loaded room_ids => (room_ids, [])
    end in
  match room_ids with
  | [] => (Ret (), db, out0 ++ [Printed "No room IDs to process."])
  | _ =>
      let '(r, db', out) :=
        fetch_all_rooms_availability room_ids net arrival db in
      (r, db', out0 ++ out)
  end.

(** ** Vocabulary of the specification *)

(** A printed line names a room when the room's id, as [str] writes it,
    occurs in the text. *)
Definition names_room (l : log_line) (space_id : Z) : Prop :=
  ∃ pre post, l = Printed (pre +:+ pretty space_id +:+ post).

(** A fetch fails when the HTTP stack raises or the traversal of the decoded
    body does. *)
Definition fetch_fails (space_id : Z) (r : reply) : Prop :=
  match r with
  | Fails _ => True
  | Body data => ∃ e, parse_response space_id data = Raise e
  end.

(** The [subjects] array of a response and the [items] array of a subject. *)
Definition subjects_of (data : pyval) : list pyval :=
  match data with
  | PyDict m => match m !! "subjects" with Some (PyList l) => l | _ => [] end
  | _ => []
  end.

Definition items_of (subject : pyval) : list pyval :=
  match subject with
  | PyDict m => match m !! "items" with Some (PyList l) => l | _ => [] end
  | _ => []
  end.

(** The number of items summed across all subjects. *)
Definition total_items (data : pyval) : nat :=
  sum_list (length <$> (items_of <$> subjects_of data)).

Definition is_dict (v : pyval) : bool :=
  match v with PyDict _ => true | _ => false end.

(** A response of the documented shape: an object whose [subjects], when
    present, is an array of objects whose [items], when present, is an array
    of objects. *)
Definition subject_shaped (subject : pyval) : bool :=
  match subject with
  | PyDict m =>
      match m !! "items" with
      | None => true
      | Some (PyList l) => forallb is_dict l
      | Some _ => false
      end
  | _ => false
  end.

Definition response_shaped (data : pyval) : bool :=
  match data with
  | PyDict m =>
      match m !! "subjects" with
      | None => true
      | Some (PyList l) => forallb subject_shaped l
      | Some _ => false
      end
  | _ => false
  end.

(** The records one subject contributes. *)
Definition subject_records (space_id : Z) (subject : pyval)
    : res (list record) :=
  subject_body space_id subject [].

(** The date a subject's records carry. *)
Definition subject_date (subject : pyval) : pyval :=
  match subject with
  | PyDict m => default (PyStr "") (m !! "item_date")
  | _ => PyStr ""
  end.

(** A subject without the [item_date] key. *)
Definition lacks_item_date (subject : pyval) : Prop :=
  match subject with
  | PyDict m => m !! "item_date" = None
  | _ => False
  end.

(** The table a call leaves behind, the lines it printed, and the number of
    rows of a table. *)
Definition table_after (x : res () * database * list log_line) : database :=
  x.1.2.

Definition printed_by (x : res () * database * list log_line)
    : list log_line :=
  x.2.

Definition row_count (db : database) : option nat :=
  length <$> db.

(** A record fails coercion and is dropped: the [try] body raises an
    exception that the [except] clause names. *)
Definition dropped (item : record) : Prop :=
  ∃ e, coerce_item item = Raise e ∧ store_catches e = true.

(** A record, or a row, carries the id of a room of the directory. *)
Definition from_directory (room_ids : list RoomRef) (r : record) : Prop :=
  ∃ room, room ∈ room_ids ∧ r !! "room_id" = Some (PyInt (id room)).

Definition row_from_directory (room_ids : list RoomRef) (r : row) : Prop :=
  ∃ room, room ∈ room_ids ∧ room_id r = SqlInt (id room).

(** ** Further vocabulary *)

(** The keys of the dictionary the fetcher builds for an item. *)
Definition record_keys : gset string :=
  list_to_set ["room_id"; "date"; "event_name"; "time_start"; "time_end";
               "status"; "additional_details"].

(** The coercion of a record, when the [try] body completes. *)
Definition coerced (item : record) : option prepared :=
  match coerce_item item with
  | Ret t => Some t
  | Raise _ => None
  end.

(** The record survives the coercion. *)
Definition survives (item : record) : bool :=
  match coerce_item item with
  | Ret _ => true
  | Raise _ => false
  end.

(** A row holds NULL, not zero, wherever its record holds the sentinel. *)
Definition null_for_sentinel (item : record) (r : row) : Prop :=
  (item !! "time_start" = Some (PyStr "N/A") →
     time_start r = SqlNull ∧ time_start r ≠ SqlInt 0)
  ∧ (item !! "time_end" = Some (PyStr "N/A") →
     time_end r = SqlNull ∧ time_end r ≠ SqlInt 0)
  ∧ (item !! "status" = Some (PyStr "N/A") →
     status r = SqlNull ∧ status r ≠ SqlInt 0).

(** The items of a response, each with the date of its subject, in the
    order of the response. *)
Definition response_items (data : pyval) : list (pyval * pyval) :=
  concat ((λ subject,
             (λ item, (subject_date subject, item)) <$> items_of subject)
          <$> subjects_of data).

(** The record built for an item survives the coercion. *)
Definition item_survives (space_id : Z) (p : pyval * pyval) : bool :=
  match make_record space_id p.1 p.2 with
  | Ret r => survives r
  | Raise _ => false
  end.

(** A row holds NULL for each of the numbers its item lacks, and the text
    of the sentinel for each of the texts its item lacks. *)
Definition null_for_missing (p : pyval * pyval) (r : row) : Prop :=
  ∀ m, p.2 = PyDict m →
    (m !! "start" = None → time_start r = SqlNull)
    ∧ (m !! "end" = None → time_end r = SqlNull)
    ∧ (m !! "type_id" = None → status r = SqlNull).

Definition sentinel_for_missing (p : pyval * pyval) (r : row) : Prop :=
  ∀ m, p.2 = PyDict m →
    (m !! "itemName" = None → event_name r = SqlText "N/A")
    ∧ (m !! "itemId2" = None → additional_details r = SqlText "N/A").

(** The line printed for a dropped record. *)
Definition is_item_warning (l : log_line) : bool :=
  match l with
  | PrintedItemError _ _ => true
  | Printed _ => false
  end.

(** A prepared tuple that [sqlite3] cannot bind, whatever key it would get. *)
Definition unbindable (t : prepared) : Prop :=
  ∀ key, ∃ e, insert_row key t = Raise e.

(** The coercion of a record raises an exception the [except] clause does
    not name. *)
Definition aborts (item : record) : bool :=
  match coerce_item item with
  | Raise e => negb (store_catches e)
  | Ret _ => false
  end.

(** [sqlite3] can bind every value of a prepared tuple. *)
Definition binds (t : prepared) : bool :=
  match insert_row 0 t with
  | Ret _ => true
  | Raise _ => false
  end.

(** The number of rows a non-empty batch leaves in the table: none when a
    coercion aborts the loop or a tuple cannot be bound, else one per record
    that survives the coercion. *)
Definition rows_left (batch : list record) : nat :=
  if existsb aborts batch || existsb (λ t, negb (binds t)) (omap coerced batch)
  then 0%nat
  else length (omap coerced batch).

(** What task [i] hands to the orchestrator and what it prints. *)
Definition task_records (room_ids : list RoomRef) (net : nat → reply)
    (i : nat) : list record :=
  match room_ids !! i with
  | Some room =>
      match fetch_single_room_availability (id room) (net i) with
      | (Ret result, _) => result
      | (Raise _, _) => []
      end
  | None => []
  end.

Definition task_lines (room_ids : list RoomRef) (net : nat → reply)
    (i : nat) : list log_line :=
  match room_ids !! i with
  | Some room => (fetch_single_room_availability (id room) (net i)).2
  | None => []
  end.

(** ** [fetch_all_room_ids] of [get_rooms.py]

    The script that writes [room_ids.json].  [float_nonzero] is the truth
    value of a float. *)

(** [bool(v)]. *)
Definition py_truthy (float_nonzero : pyfloat → bool) (v : pyval) : bool :=
  match v with
  | PyNone => false
  | PyBool b => b
  | PyInt z => negb (z =? 0)
  | PyFloat f => float_nonzero f
  | PyStr s => negb (String.eqb s "")
  | PyList l => match l with [] => false | _ => true end
  | PyDict m => negb (bool_decide (m = ∅))
  end.

(** The body of the inner loop at lines 31-35: an element that is not a
    dictionary is passed over, and so is one whose [itemId] is falsy. *)
Definition room_entry (float_nonzero : pyfloat → bool) (room : pyval)
    : option record :=
  match room with
  | PyDict m =>
      let room_id := default PyNone (m !! "itemId") in
      let room_name := default PyNone (m !! "itemName") in
      if py_truthy float_nonzero room_id then
        Some (<["id" := room_id]> (<["name" := room_name]> ∅))
      else None
  | _ => None
  end.

(** The inner loop, [for room in row_entry.get("row", [])]. *)
Fixpoint rooms_loop (float_nonzero : pyfloat → bool) (rooms : list pyval)
    (room_ids : list record) : list record :=
  match rooms with
  | [] => room_ids
  | room :: rest =>
      rooms_loop float_nonzero rest
        (match room_entry float_nonzero room with
         | Some entry => room_ids ++ [entry]
         | None => room_ids
         end)
  end.

(** The outer loop, [for row_entry in data.get("rows", [])]. *)
Fixpoint rows_loop (float_nonzero : pyfloat → bool) (rows : list pyval)
    (room_ids : list record) : res (list record) :=
  match rows with
  | [] => mret room_ids
  | row_entry :: rest =>
      r ← py_get row_entry "row" (PyList []);
      rooms ← py_iter r;
      rows_loop float_nonzero rest (rooms_loop float_nonzero rooms room_ids)
  end.

(** Lines 28-35: the list that is written to [room_ids.json]. *)
Definition extract_room_ids (float_nonzero : pyfloat → bool) (data : pyval)
    : res (list record) :=
  rs ← py_get data "rows" (PyList []);
  rows ← py_iter rs;
  rows_loop float_nonzero rows [].

(** What the listing service answers: [requests.get] raises, or a response
    arrives with a status code and a body that [response.json()] decodes or
    fails on. *)
Inductive listing_reply :=
  | Unreachable (e : exn)
  | Answered (status_code : Z) (body : res pyval).

(** The function: its result, the content of [room_ids.json] when it is
    written, and the lines printed after the dump of the raw response. *)
Definition fetch_all_room_ids (float_nonzero : pyfloat → bool)
    (r : listing_reply) : res () * option (list record) * list log_line :=
  match r with
  | Unreachable e => (Raise e, None, [])
  | Answered status_code body =>
      if bool_decide (status_code = 200) then
        match body with
        | Raise e => (Raise e, None, [])
        | Ret data =>
            match extract_room_ids float_nonzero data with
            | Raise e => (Raise e, None, [])
            | Ret room_ids =>
                (Ret (), Some room_ids,
                 [Printed ("Saved " +:+ pretty (length room_ids)
                           +:+ " room IDs to 'room_ids.json'")])
            end
        end
      else
        (Ret (), None,
         [Printed ("Failed to retrieve data. Status code: "
                   +:+ pretty status_code)])
  end.

End Model.

(** ** A reference runtime

    An implementation of the runtime's conversions that reads whole-number
    decimal literals only and takes the integers for its floats; it lets the
    pipeline be evaluated on concrete inputs. *)

Definition digit_value (c : Ascii.ascii) : option Z :=
  let n := Z.of_nat (Ascii.nat_of_ascii c) in
  if bool_decide (48 ≤ n ≤ 57) then Some (n - 48) else None.

Fixpoint digits_value (s : string) (acc : Z) : option Z :=
  match s with
  | EmptyString => Some acc
  | String c s' => d ← digit_value c; digits_value s' (10 * acc + d)
  end.

Definition whole_number (s : string) : option Z :=
  match s with
  | EmptyString => None
  | String c s' =>
      if bool_decide (Ascii.nat_of_ascii c = 45%nat) then   (* minus sign *)
        match s' with
        | EmptyString => None
        | _ => Z.opp <$> digits_value s' 0
        end
      else digits_value s 0
  end.

Definition reference_runtime : PyRuntime := {|
  pyfloat := Z;
  float_of_str := whole_number;
  float_of_int := Some;
  int_of_str := whole_number;
  int_of_float := Ret;
|}.

(** ** Sample data, over the reference runtime *)

Section Samples.
#[local] Existing Instance reference_runtime.

Definition obj (fields : list (string * pyval)) : pyval :=
  PyDict (list_to_map fields).

(** A response with two subjects and three items; the second subject has no
    [item_date], the second item only a name. *)
Definition sample_response : pyval :=
  obj [("subjects", PyList [
    obj [("item_date", PyStr "2024-11-14");
         ("items", PyList [
            obj [("itemName", PyStr "CS101"); ("start", PyInt 9);
                 ("end", PyInt 10); ("type_id", PyStr "2");
                 ("itemId2", PyStr "A1")];
            obj [("itemName", PyStr "Closed")]])];
    obj [("items", PyList [
            obj [("itemName", PyStr "MATH140"); ("start", PyStr "13");
                 ("end", PyStr "14"); ("type_id", PyInt 1)]])]])].

(** A response whose [subjects] is [null]. *)
Definition null_subjects_response : pyval :=
  obj [("subjects", PyNone)].

(** A response whose only subject has [null] for its [item_date]. *)
Definition null_date_response : pyval :=
  obj [("subjects", PyList [
    obj [("item_date", PyNone);
         ("items", PyList [obj [("itemName", PyStr "CS101")]])]])].

(** A response with two items, the first with [null] for its start. *)
Definition null_start_response : pyval :=
  obj [("subjects", PyList [
    obj [("item_date", PyStr "2024-11-14");
         ("items", PyList [
            obj [("itemName", PyStr "CS101"); ("start", PyNone);
                 ("end", PyInt 10); ("type_id", PyInt 2)];
            obj [("itemName", PyStr "MATH140"); ("start", PyInt 13);
                 ("end", PyInt 14); ("type_id", PyInt 1)]])]])].

Definition room_esj : RoomRef := {| id := 101; name := "ESJ 0101" |}.
Definition room_iri : RoomRef := {| id := 202; name := "IRB 0318" |}.

Definition timed_out : exn :=
  Exn RequestException "HTTPSConnectionPool: Read timed out. (read timeout=10)".

(** What the fetcher returns for a room and a reply. *)
Definition fetched (space_id : Z) (r : reply) : list (gmap string pyval) :=
  match fetch_single_room_availability space_id r with
  | (Ret l, _) => l
  | _ => []
  end.

(** A record with the sentinel in all three converted fields, its coercion
    and its row. *)
Definition closed_record : gmap string pyval :=
  list_to_map [("room_id", PyInt 101); ("date", PyStr "2024-11-14");
               ("event_name", PyStr "Closed"); ("time_start", PyStr "N/A");
               ("time_end", PyStr "N/A"); ("status", PyStr "N/A");
               ("additional_details", PyStr "N/A")].

Definition closed_prepared : prepared :=
  Prepared (PyInt 101) (PyStr "2024-11-14") (PyStr "Closed") None None None
    (PyStr "N/A").

Definition closed_row : row :=
  Row 1 (SqlInt 101) (SqlText "2024-11-14") (SqlText "Closed") SqlNull SqlNull
    SqlNull (SqlText "N/A").

(** A record whose status is not a number. *)
Definition odd_status_record : gmap string pyval :=
  <["status" := PyStr "pending"]> closed_record.

(** The network of the two-room scenario: the first task times out, the
    second gets the sample response. *)
Definition one_timeout_net (i : nat) : reply :=
  match i with
  | O => Fails timed_out
  | _ => Body sample_response
  end.

(** The record, the tuple and the row of an item without any key. *)
Definition bare_record : gmap string pyval :=
  list_to_map [("room_id", PyInt 101); ("date", PyStr "2024-11-14");
               ("event_name", PyStr "N/A"); ("time_start", PyStr "N/A");
               ("time_end", PyStr "N/A"); ("status", PyStr "N/A");
               ("additional_details", PyStr "N/A")].

Definition bare_prepared : prepared :=
  Prepared (PyInt 101) (PyStr "2024-11-14") (PyStr "N/A") None None None
    (PyStr "N/A").

Definition bare_row : row :=
  Row 1 (SqlInt 101) (SqlText "2024-11-14") (SqlText "N/A") SqlNull SqlNull
    SqlNull (SqlText "N/A").

(** A record whose event name is an array, and its coercion. *)
Definition array_name_record : gmap string pyval :=
  <["event_name" := PyList []]> closed_record.

Definition array_name_prepared : prepared :=
  Prepared (PyInt 101) (PyStr "2024-11-14") (PyList []) None None None
    (PyStr "N/A").

(** A response with one item that has no key at all. *)
Definition bare_item_response : pyval :=
  obj [("subjects", PyList [
    obj [("item_date", PyStr "2024-11-14"); ("items", PyList [obj []])]])].

(** A network on which every request times out. *)
Definition outage_net (i : nat) : reply := Fails timed_out.

(** A listing with two rows; the first holds a room, a string and a room
    without id. *)
Definition sample_listing : pyval :=
  obj [("rows", PyList [
    obj [("row", PyList [
            obj [("itemId", PyInt 101); ("itemName", PyStr "ESJ 0101")];
            PyStr "ESJ";
            obj [("itemName", PyStr "unnumbered")]])];
    obj [("row", PyList [
            obj [("itemId", PyInt 202); ("itemName", PyStr "IRB 0318")]])]])].

Definition whole_nonzero (z : pyfloat) : bool := negb (Z.eqb z 0).

End Samples.

Section Properties.
Context `{RT : PyRuntime}.

Abbreviation record := (gmap string pyval).

(** ** Facts about the fetcher's loops *)

Lemma append_empty_r (s : string) : s +:+ "" = s.
Proof.
  induction s as [|c s IH]; [done|].
  change (String c (s +:+ "") = String c s). by rewrite IH.
Qed.

Lemma bind_Ret {A B} (m : res A) (k : A → res B) (b : B) :
  m ≫= k = Ret b → ∃ a, m = Ret a ∧ k a = Ret b.
Proof. destruct m as [a|e]; simpl; [eauto | done]. Qed.

Tactic Notation "invert_bind" hyp(H) "as" ident(a) ident(Ha) :=
  apply bind_Ret in H; destruct H as (a & Ha & H).

Lemma py_get_Ret o k d v :
  py_get o k d = Ret v → ∃ m, o = PyDict m ∧ v = default d (m !! k).
Proof. destruct o; simpl; intros [= <-] || intros [=]; eauto. Qed.

Lemma make_record_Ret space_id dt item r :
  make_record space_id dt item = Ret r →
  is_dict item = true ∧ r !! "room_id" = Some (PyInt space_id)
  ∧ r !! "date" = Some dt.
Proof.
  destruct item; simpl; try discriminate.
  intros [= <-]. split; [done|]. by split.
Qed.

Lemma make_record_dict space_id dt m :
  ∃ r, make_record space_id dt (PyDict m) = Ret r.
Proof. eexists. reflexivity. Qed.

Lemma items_loop_Ret space_id dt items acc out :
  items_loop space_id dt items acc = Ret out →
  ∃ new, out = acc ++ new ∧ length new = length items
    ∧ Forall (λ v, is_dict v = true) items
    ∧ Forall (λ r : record, r !! "room_id" = Some (PyInt space_id)
                            ∧ r !! "date" = Some dt) new.
Proof.
  revert acc. induction items as [|item rest IH]; intros acc H; simpl in H.
  - injection H as <-. exists []. by rewrite app_nil_r.
  - invert_bind H as r Hr. apply make_record_Ret in Hr as (Hd & Hr).
    apply IH in H as (new & -> & Hlen & Hall & Hnew).
    exists (r :: new). rewrite <- app_assoc. simpl.
    repeat split; auto.
Qed.

Lemma items_loop_dicts space_id dt items acc :
  forallb is_dict items = true →
  ∃ out, items_loop space_id dt items acc = Ret out.
Proof.
  revert acc. induction items as [|item rest IH]; intros acc H; simpl in *.
  - eauto.
  - apply andb_prop in H as [Hi Hr]. destruct item; try discriminate.
    destruct (make_record_dict space_id dt m) as [r ->]. simpl.
    by apply IH.
Qed.

Lemma chars_no_dict s :
  Forall (λ v, is_dict v = true) (chars s) → chars s = [].
Proof. destruct s; [done|]. simpl. by inversion 1. Qed.

Lemma keys_no_dict (l : list string) :
  Forall (λ v, is_dict v = true) (PyStr <$> l) → PyStr <$> l = [].
Proof. destruct l; [done|]. simpl. by inversion 1. Qed.

(** Whatever iteration yields, a loop that survives it saw the elements of an
    array (or nothing at all). *)
Lemma py_iter_dicts o elems (arr : pyval → list pyval) :
  (∀ l, arr (PyList l) = l) →
  (∀ v, (if v is PyList _ then False else True) → arr v = []) →
  py_iter o = Ret elems →
  Forall (λ v, is_dict v = true) elems →
  elems = arr o.
Proof.
  intros Hl Hn. destruct o; simpl; try discriminate; intros [= <-] Hall.
  - rewrite Hn; [by apply chars_no_dict | done].
  - by rewrite Hl.
  - rewrite Hn; [by apply keys_no_dict | done].
Qed.

(** The accumulator only receives appends. *)
Lemma items_loop_acc space_id dt items acc :
  items_loop space_id dt items acc
  = new ← items_loop space_id dt items []; mret (acc ++ new).
Proof.
  revert acc. induction items as [|item rest IH]; intros acc; simpl.
  - by rewrite app_nil_r.
  - destruct (make_record space_id dt item) as [r|e]; simpl; [|done].
    rewrite (IH (acc ++ [r])), (IH [r]).
    destruct (items_loop space_id dt rest []) as [new|e]; simpl; [|done].
    by rewrite <- app_assoc.
Qed.

Lemma subject_body_acc space_id subject acc :
  subject_body space_id subject acc
  = new ← subject_body space_id subject []; mret (acc ++ new).
Proof.
  unfold subject_body.
  destruct (py_get subject "item_date" (PyStr "")) as [dt|e]; simpl; [|done].
  destruct (py_get subject "items" (PyList [])) as [its|e]; simpl; [|done].
  destruct (py_iter its) as [items|e]; simpl; [|done].
  apply items_loop_acc.
Qed.

Lemma subject_records_Ret space_id subject new :
  subject_records space_id subject = Ret new →
  is_dict subject = true
  ∧ length new = length (items_of subject)
  ∧ Forall (λ r : record, r !! "room_id" = Some (PyInt space_id)
                          ∧ r !! "date" = Some (subject_date subject)) new.
Proof.
  unfold subject_records, subject_body. intros H.
  invert_bind H as dt Hdt. apply py_get_Ret in Hdt as (m & -> & ->).
  invert_bind H as its Hits. apply py_get_Ret in Hits as (m' & [= <-] & ->).
  invert_bind H as items Hitems.
  apply items_loop_Ret in H as (new' & -> & Hlen & Hd & Hnew). simpl.
  split; [done|]. split; [|done].
  rewrite Hlen. f_equal.
  apply (py_iter_dicts _ _
           (λ v, match v with PyList l => l | _ => [] end)) in Hitems;
    [| done | by intros [] | done].
  rewrite Hitems. by destruct (m !! "items") as [[]|].
Qed.

Lemma subject_records_shaped space_id subject :
  subject_shaped subject = true →
  ∃ new, subject_records space_id subject = Ret new.
Proof.
  destruct subject as [| | | | | |m]; try discriminate. simpl.
  unfold subject_records, subject_body. simpl.
  destruct (m !! "items") as [[| | | | |l|]|]; try discriminate; simpl.
  - apply items_loop_dicts.
  - eauto.
Qed.

Lemma subjects_loop_Ret space_id subjects acc out :
  subjects_loop space_id subjects acc = Ret out →
  ∃ parts, out = acc ++ concat parts
    ∧ Forall2 (λ subject part, subject_records space_id subject = Ret part)
        subjects parts.
Proof.
  revert acc. induction subjects as [|subject rest IH]; intros acc H; simpl in H.
  - injection H as <-. exists []. by rewrite app_nil_r.
  - invert_bind H as acc' Hacc. rewrite subject_body_acc in Hacc.
    invert_bind Hacc as part Hpart. injection Hacc as <-.
    apply IH in H as (parts & -> & Hall).
    exists (part :: parts). simpl. rewrite <- app_assoc. split; [done|].
    by constructor.
Qed.

Lemma subjects_loop_shaped space_id subjects acc :
  forallb subject_shaped subjects = true →
  ∃ out, subjects_loop space_id subjects acc = Ret out.
Proof.
  revert acc. induction subjects as [|subject rest IH]; intros acc H; simpl in *.
  - eauto.
  - apply andb_prop in H as [Hs Hr].
    destruct (subject_records_shaped space_id subject Hs) as [new Hnew].
    rewrite subject_body_acc. fold (subject_records space_id subject).
    rewrite Hnew. simpl. by apply IH.
Qed.

(** A response that is traversed without an exception is an object, and the
    subjects traversed are those of its [subjects] array. *)
Lemma parse_response_Ret space_id data recs :
  parse_response space_id data = Ret recs →
  ∃ parts, recs = concat parts
    ∧ Forall2 (λ subject part, subject_records space_id subject = Ret part)
        (subjects_of data) parts.
Proof.
  unfold parse_response. intros H.
  invert_bind H as subs Hsubs. apply py_get_Ret in Hsubs as (m & -> & ->).
  invert_bind H as subjects Hsubjects.
  apply subjects_loop_Ret in H as (parts & -> & Hall).
  exists parts. split; [done|].
  assert (Forall (λ v, is_dict v = true) subjects) as Hd.
  { clear Hsubjects.
    induction Hall as [|s p ss ps Hs _ IH]; constructor; [|done].
    by apply subject_records_Ret in Hs as (? & _). }
  apply (py_iter_dicts _ _
           (λ v, match v with PyList l => l | _ => [] end)) in Hsubjects;
    [| done | by intros [] | done].
  subst subjects. simpl. by destruct (m !! "subjects") as [[]|].
Qed.

Lemma parse_response_shaped space_id data :
  response_shaped data = true →
  ∃ recs, parse_response space_id data = Ret recs.
Proof.
  destruct data as [| | | | | |m]; try discriminate. simpl.
  unfold parse_response. simpl.
  destruct (m !! "subjects") as [[| | | | |l|]|]; try discriminate; simpl.
  - apply subjects_loop_shaped.
  - eauto.
Qed.

Lemma parse_response_length space_id data recs :
  parse_response space_id data = Ret recs →
  length recs = total_items data.
Proof.
  intros (parts & -> & Hall)%parse_response_Ret. unfold total_items.
  induction Hall as [|s p ss ps Hs _ IH]; [done|].
  apply subject_records_Ret in Hs as (_ & Hlen & _).
  simpl. rewrite length_app, IH, Hlen. done.
Qed.

Lemma fetch_handler_names space_id e :
  names_room (fetch_handler space_id e) space_id.
Proof.
  unfold fetch_handler, names_room.
  destruct (is_request_exception _); [by eexists _, _|].
  destruct (is_json_decode_error _); [|by eexists _, _].
  exists "JSON decode error for room ", "". by rewrite append_empty_r.
Qed.

Lemma fetch_unlogged space_id data recs :
  fetch_single_room_availability space_id (Body data) = (Ret recs, [])
  ↔ parse_response space_id data = Ret recs.
Proof.
  unfold fetch_single_room_availability.
  destruct (parse_response space_id data) as [a|e]; split; intros H;
    by simplify_eq.
Qed.

(** The fetcher never hands an exception to its caller. *)
Lemma fetch_returns space_id r :
  ∃ result out, fetch_single_room_availability space_id r = (Ret result, out).
Proof.
  unfold fetch_single_room_availability.
  destruct r as [e|data]; [by eexists _, _|].
  destruct (parse_response space_id data); by eexists _, _.
Qed.

(** ** Properties of the fetcher *)

(** C1. Whatever the room id and whatever fails during its fetch (the HTTP
    stack raising a request error, a status error or a decoding error, or the
    traversal of the decoded body raising anything), the fetcher returns the
    empty list, having printed exactly one line, which names the room id; no
    exception reaches the caller. *)
Theorem fetch_failure_logged_and_empty (space_id : Z) (r : reply) :
  fetch_fails space_id r →
  ∃ line,
    fetch_single_room_availability space_id r = (Ret [], [line])
    ∧ names_room line space_id.
Proof.
  unfold fetch_single_room_availability.
  destruct r as [e|data]; simpl.
  - intros _. eexists. split; [done|]. apply fetch_handler_names.
  - intros [e ->]. eexists. split; [done|]. apply fetch_handler_names.
Qed.

(** C2. For a response of the documented shape the fetcher returns, without
    printing anything, a list with one record per element of each subject's
    [items] array: its length is the number of items summed over the
    [subjects] array. *)
Theorem fetch_success_one_record_per_item (space_id : Z) (data : pyval) :
  response_shaped data = true →
  ∃ recs,
    fetch_single_room_availability space_id (Body data) = (Ret recs, [])
    ∧ length recs = total_items data.
Proof.
  intros [recs Hrecs]%(parse_response_shaped space_id).
  exists recs. split.
  - by apply fetch_unlogged.
  - by eapply parse_response_length.
Qed.

(** The same count for every response the traversal survives, of the
    documented shape or not. *)
Lemma fetch_unlogged_one_record_per_item space_id data recs :
  fetch_single_room_availability space_id (Body data) = (Ret recs, []) →
  length recs = total_items data.
Proof. intros ?%fetch_unlogged. by eapply parse_response_length. Qed.

(** C10, as the fetcher behaves.  The records of a successful fetch are the
    concatenation of the records of the response's subjects.  Every record
    that comes from a subject without the [item_date] key has the empty
    string as its date: a string, neither the sentinel ["N/A"] nor [None].
    A record that comes from a subject with the key has the key's value as
    its date, whatever the type of that value: the date is a string only
    when that value is one. *)
Theorem missing_item_date_is_empty_string (space_id : Z) (data : pyval)
    (recs : list record) :
  fetch_single_room_availability space_id (Body data) = (Ret recs, []) →
  ∃ parts,
    recs = concat parts
    ∧ Forall2 (λ subject part,
        subject_records space_id subject = Ret part
        ∧ (lacks_item_date subject →
           Forall (λ r : record,
             r !! "date" = Some (PyStr "")
             ∧ r !! "date" ≠ Some (PyStr "N/A")
             ∧ r !! "date" ≠ Some PyNone) part)
        ∧ (∀ m v, subject = PyDict m → m !! "item_date" = Some v →
           Forall (λ r : record, r !! "date" = Some v) part))
        (subjects_of data) parts.
Proof.
  intros (parts & -> & Hall)%fetch_unlogged%parse_response_Ret.
  exists parts. split; [done|].
  eapply Forall2_impl; [exact Hall|].
  intros subject part Hpart. split; [done|].
  apply subject_records_Ret in Hpart as (_ & _ & Hdate).
  split.
  - intros Hlack. eapply Forall_impl; [exact Hdate|].
    intros r [_ Hr]. destruct subject; try done. simpl in *.
    rewrite Hlack in Hr. simpl in Hr. rewrite Hr. by repeat split.
  - intros m v -> Hv. eapply Forall_impl; [exact Hdate|].
    intros r [_ Hr]. simpl in Hr. by rewrite Hv in Hr.
Qed.

(** ** Facts about the store *)

Lemma convert_unless_na_sentinel {A} (conv : pyval → res A) (item : record) k :
  item !! k = Some (PyStr "N/A") →
  convert_unless_na conv item k = Ret None.
Proof. intros H. unfold convert_unless_na, py_index. by rewrite H. Qed.

Lemma py_index_Ret (item : record) k v :
  py_index item k = Ret v ↔ item !! k = Some v.
Proof.
  unfold py_index. destruct (item !! k); split; intros H; by simplify_eq.
Qed.

Lemma coerce_item_Ret item t :
  coerce_item item = Ret t →
  convert_unless_na py_float item "time_start" = Ret (p_time_start t)
  ∧ convert_unless_na py_float item "time_end" = Ret (p_time_end t)
  ∧ convert_unless_na py_int item "status" = Ret (p_status t)
  ∧ item !! "room_id" = Some (p_room_id t).
Proof.
  unfold coerce_item. intros H.
  invert_bind H as ts Hts. invert_bind H as te Hte.
  invert_bind H as st Hst. invert_bind H as rid Hrid.
  invert_bind H as dt Hdt. invert_bind H as ev Hev.
  invert_bind H as ad Had. injection H as <-. simpl.
  by apply py_index_Ret in Hrid.
Qed.

(** The tuples the loop keeps are coercions of records of the batch. *)
Lemma prepare_loop_Ret data acc records out :
  prepare_loop data acc = (Ret records, out) →
  ∃ new, records = acc ++ new
    ∧ Forall (λ t, ∃ item, item ∈ data ∧ coerce_item item = Ret t) new.
Proof.
  revert acc out. induction data as [|item rest IH]; intros acc out H;
    simpl in H.
  - injection H as <- <-. exists []. by rewrite app_nil_r.
  - destruct (coerce_item item) as [t|e] eqn:Hc.
    + apply IH in H as (new & -> & Hnew). exists (t :: new).
      rewrite <- app_assoc. split; [done|]. constructor.
      * exists item. split; [left | done].
      * eapply Forall_impl; [exact Hnew|].
        intros t' (item' & ? & ?). exists item'. split; [by right | done].
    + destruct (store_catches e); [|done].
      destruct (prepare_loop rest acc) as [r out'] eqn:Hp.
      injection H as -> <-.
      apply IH in Hp as (new & -> & Hnew). exists new. split; [done|].
      eapply Forall_impl; [exact Hnew|].
      intros t' (item' & ? & ?). exists item'. split; [by right | done].
Qed.

(** When every record is dropped the loop keeps what it had. *)
Lemma prepare_loop_all_dropped data acc :
  Forall dropped data →
  ∃ out, prepare_loop data acc = (Ret acc, out)
    ∧ length out = length data.
Proof.
  induction 1 as [|item rest (e & He & Hc) _ (out & IH & Hlen)]; simpl.
  - by exists [].
  - rewrite He, Hc, IH. eexists. split; [done|]. simpl. by rewrite Hlen.
Qed.

Lemma executemany_Ret records rows0 rows :
  executemany records rows0 = Ret rows →
  ∃ new, rows = rows0 ++ new
    ∧ Forall (λ r, ∃ t, t ∈ records ∧ insert_row (row_id r) t = Ret r) new.
Proof.
  revert rows0. induction records as [|t rest IH]; intros rows0 H; simpl in H.
  - injection H as <-. exists []. by rewrite app_nil_r.
  - invert_bind H as r Hr.
    apply IH in H as (new & -> & Hnew). exists (r :: new).
    rewrite <- app_assoc. split; [done|].
    assert (row_id r = Z.of_nat (length rows0) + 1) as Hid.
    { unfold insert_row in Hr.
      invert_bind Hr as c1 H1. invert_bind Hr as c2 H2.
      invert_bind Hr as c3 H3. invert_bind Hr as c6 H6.
      invert_bind Hr as c7 H7. by injection Hr as <-. }
    constructor.
    + exists t. split; [left|]. by rewrite Hid.
    + eapply Forall_impl; [exact Hnew|].
      intros r' (t' & ? & ?). exists t'. split; [by right | done].
Qed.

(** On a non-empty batch the store never looks at the table it finds. *)
Lemma store_ignores_previous_table batch db db' :
  batch ≠ [] →
  store_availability_to_db batch db = store_availability_to_db batch db'.
Proof. by destruct batch. Qed.

Lemma store_leaves_a_table batch db :
  batch ≠ [] →
  ∃ rows, table_after (store_availability_to_db batch db) = Some rows.
Proof.
  destruct batch as [|item rest]; [done|]. intros _.
  unfold store_availability_to_db.
  destruct (prepare_loop (item :: rest) []) as [[[|t records]|e] out];
    [by eexists.. | | by eexists].
  destruct (executemany (t :: records) []); by eexists.
Qed.

(** Every row of the table a non-empty batch leaves was inserted for the
    coercion of a record of that batch. *)
Lemma store_rows_sound batch db rows :
  batch ≠ [] →
  table_after (store_availability_to_db batch db) = Some rows →
  Forall (λ r, ∃ item t,
    item ∈ batch ∧ coerce_item item = Ret t
    ∧ insert_row (row_id r) t = Ret r) rows.
Proof.
  destruct batch as [|item rest]; [done|]. intros _.
  unfold store_availability_to_db.
  destruct (prepare_loop (item :: rest) []) as [[records|e] out] eqn:Hp.
  2: { intros [= <-]. constructor. }
  apply prepare_loop_Ret in Hp as (new & -> & Hnew). simpl in *.
  destruct new as [|t new]; [intros [= <-]; constructor|].
  destruct (executemany (t :: new) []) as [rows'|e] eqn:He.
  2: { intros [= <-]. constructor. }
  intros [= <-].
  apply executemany_Ret in He as (ins & -> & Hins). simpl.
  eapply Forall_impl; [exact Hins|].
  intros r (t' & Ht' & Hr).
  rewrite Forall_forall in Hnew.
  destruct (Hnew _ Ht') as (item' & ? & ?). by exists item', t'.
Qed.

(** A dropped record costs one warning and the loop goes on; an exception
    the [except] clause does not name ends the loop. *)
Lemma prepare_loop_drops_and_continues item rest acc e :
  coerce_item item = Raise e →
  store_catches e = true →
  prepare_loop (item :: rest) acc
  = (let '(r, out) := prepare_loop rest acc in
     (r, PrintedItemError item e :: out)).
Proof. intros He Hc. simpl. by rewrite He, Hc. Qed.

Lemma prepare_loop_uncaught item rest acc e :
  coerce_item item = Raise e →
  store_catches e = false →
  prepare_loop (item :: rest) acc = (Raise e, []).
Proof. intros He Hc. simpl. by rewrite He, Hc. Qed.

(** ** Properties of the store *)

(** The coercion and the binding of one record: a field that holds the
    sentinel ["N/A"] is prepared as [None] and bound as NULL. *)
Lemma sentinel_coerces_to_null (item : record) (t : prepared) (key : Z)
    (r : row) :
  coerce_item item = Ret t →
  insert_row key t = Ret r →
  (item !! "time_start" = Some (PyStr "N/A") →
     p_time_start t = None ∧ time_start r = SqlNull
     ∧ time_start r ≠ SqlInt 0)
  ∧ (item !! "time_end" = Some (PyStr "N/A") →
     p_time_end t = None ∧ time_end r = SqlNull ∧ time_end r ≠ SqlInt 0)
  ∧ (item !! "status" = Some (PyStr "N/A") →
     p_status t = None ∧ status r = SqlNull ∧ status r ≠ SqlInt 0).
Proof.
  intros (Hts & Hte & Hst & _)%coerce_item_Ret Hr.
  unfold insert_row in Hr.
  invert_bind Hr as c1 H1. invert_bind Hr as c2 H2.
  invert_bind Hr as c3 H3. invert_bind Hr as c6 H6.
  invert_bind Hr as c7 H7. injection Hr as <-. simpl.
  split; [|split]; intros Hna.
  - rewrite convert_unless_na_sentinel in Hts by done.
    injection Hts as Hts. by rewrite <- Hts.
  - rewrite convert_unless_na_sentinel in Hte by done.
    injection Hte as Hte. by rewrite <- Hte.
  - rewrite convert_unless_na_sentinel in Hst by done.
    injection Hst as Hst. rewrite <- Hst in H6 |- *.
    injection H6 as <-. done.
Qed.

(** C4. Storing a non-empty batch twice in succession leaves, after the
    second run, the table the first run left, with the same number of rows:
    the table is dropped and recreated whatever it held, so the rows of the
    first run are replaced, not added to. *)
Theorem store_twice_same_row_count (batch : list record) (db : database) :
  batch ≠ [] →
  let first := table_after (store_availability_to_db batch db) in
  let second := table_after (store_availability_to_db batch first) in
  (∃ rows, first = Some rows)
  ∧ second = first
  ∧ row_count second = row_count first.
Proof.
  intros Hne first second.
  assert (second = first) as Heq.
  { unfold second, first.
    by rewrite (store_ignores_previous_table batch _ db). }
  split; [by apply store_leaves_a_table|]. split; [done|]. by rewrite Heq.
Qed.

(** C9. When the batch is not empty and every record in it is dropped by the
    coercion, the store still returns with the table dropped and recreated
    empty, after one warning per record and the line that there is nothing
    to insert; on the empty batch it leaves the table as it found it. *)
Theorem all_dropped_still_recreates_table (batch : list record)
    (db : database) :
  batch ≠ [] →
  Forall dropped batch →
  (∃ warnings,
     store_availability_to_db batch db
     = (Ret (), Some [], warnings ++ [Printed "No records to insert."])
     ∧ length warnings = length batch)
  ∧ table_after (store_availability_to_db [] db) = db.
Proof.
  intros Hne Hall. split; [|done].
  destruct (prepare_loop_all_dropped batch [] Hall) as (out & Hp & Hlen).
  exists out. split; [|done].
  destruct batch as [|item rest]; [done|].
  unfold store_availability_to_db. by rewrite Hp.
Qed.

(** ** Facts about the orchestrator *)

(** Every record the fetcher returns carries the id it was called with. *)
Lemma fetch_records_tagged space_id r result out :
  fetch_single_room_availability space_id r = (Ret result, out) →
  Forall (λ rec : record, rec !! "room_id" = Some (PyInt space_id)) result.
Proof.
  unfold fetch_single_room_availability.
  destruct r as [e|data]; [by intros [= <- _]|].
  destruct (parse_response space_id data) as [a|e] eqn:Hp;
    [|by intros [= <- _]].
  intros [= <- _].
  apply parse_response_Ret in Hp as (parts & -> & Hall).
  apply Forall_concat.
  induction Hall as [|s p ss ps Hs _ IH]; constructor; [|done].
  apply subject_records_Ret in Hs as (_ & _ & Hs).
  eapply Forall_impl; [exact Hs|]. by intros rec [? _].
Qed.

Lemma collect_from_directory room_ids net arrival acc batch out :
  collect room_ids net arrival acc = (batch, out) →
  Forall (from_directory room_ids) acc →
  Forall (from_directory room_ids) batch.
Proof.
  revert acc batch out.
  induction arrival as [|i rest IH]; intros acc batch out H Hacc; simpl in H.
  - by injection H as <- _.
  - destruct (room_ids !! i) as [room|] eqn:Hroom; [|by eapply IH].
    destruct (fetch_single_room_availability (id room) (net i))
      as [outcome printed] eqn:Hf.
    destruct outcome as [result|e].
    + apply fetch_records_tagged in Hf.
      match type of H with
      | (let '(_, _) := collect _ _ _ ?a in _) = _ =>
          destruct (collect room_ids net rest a) as [b o] eqn:Hc
      end.
      injection H as <- _. eapply IH; [exact Hc|].
      assert (Forall (from_directory room_ids) result) as Hres.
      { eapply Forall_impl; [exact Hf|]. intros rec Hrec.
        exists room. split; [by eapply list_elem_of_lookup_2 | done]. }
      destruct result; [done|]. by apply Forall_app.
    + destruct (collect room_ids net rest acc) as [b o] eqn:Hc.
      injection H as <- _. by eapply IH.
Qed.

Lemma collect_no_rooms net arrival acc :
  collect [] net arrival acc = (acc, []).
Proof. induction arrival as [|i rest IH]; [done|]. simpl. exact IH. Qed.

(** Called on an empty directory, the orchestrator fetches nothing and the
    store declines the empty batch. *)
Lemma orchestrator_on_empty_directory net arrival db :
  fetch_all_rooms_availability [] net arrival db
  = (Ret (), db, [Printed "No availability data to store."]).
Proof.
  unfold fetch_all_rooms_availability. by rewrite collect_no_rooms.
Qed.

Lemma adapt_int_Ret z c : adapt_int z = Ret c → c = SqlInt z.
Proof. unfold adapt_int. case_bool_decide; by intros [=]. Qed.

(** ** Properties of the orchestrator and of the entry point *)

(** C6. Two rooms, in either submission order and either completion order:
    the fetch of the first raises a request exception (a timeout is one), the
    fetch of the second succeeds on a response with 3 items.  The batch
    handed to the store then has exactly 3 records, all with the second
    room's id, and a printed line names the first room's id. *)
Theorem one_timeout_one_success (r1 r2 : RoomRef) (e : exn) (data : pyval)
    (recs : list record) (room_ids : list RoomRef) (net : nat → reply)
    (arrival : list nat) (db : database) :
  is_request_exception (exn_cls e) = true →
  fetch_single_room_availability (id r2) (Body data) = (Ret recs, []) →
  total_items data = 3%nat →
  (room_ids = [r1; r2] ∧ net 0%nat = Fails e ∧ net 1%nat = Body data)
  ∨ (room_ids = [r2; r1] ∧ net 0%nat = Body data ∧ net 1%nat = Fails e) →
  arrival ≡ₚ [0; 1]%nat →
  ∃ batch out line,
    collect room_ids net arrival [] = (batch, out)
    ∧ fetch_all_rooms_availability room_ids net arrival db
      = (let '(r, db', out2) := store_availability_to_db batch db in
         (r, db', out ++ out2))
    ∧ length batch = 3%nat
    ∧ Forall (λ rec : record, rec !! "room_id" = Some (PyInt (id r2))) batch
    ∧ line = Printed ("Request error for room " +:+ pretty (id r1) +:+ ": "
                      +:+ exn_msg e)
    ∧ line ∈ out
    ∧ names_room line (id r1).
Proof.
  intros He Hfetch Htotal Htasks Harr.
  pose proof (fetch_unlogged_one_record_per_item _ _ _ Hfetch) as Hlen.
  rewrite Htotal in Hlen.
  pose proof (fetch_records_tagged _ _ _ _ Hfetch) as Htag.
  apply fetch_unlogged in Hfetch.
  assert (fetch_handler (id r1) e
          = Printed ("Request error for room " +:+ pretty (id r1) +:+ ": "
                     +:+ exn_msg e)) as Hline.
  { unfold fetch_handler. by rewrite He. }
  assert (∃ batch out,
    collect room_ids net arrival [] = (batch, out)
    ∧ batch = recs ∧ fetch_handler (id r1) e ∈ out) as (batch & out & Hc & -> & Hin).
  { symmetry in Harr. apply Permutation_length_2_inv in Harr.
    destruct recs as [|rec recs']; [done|].
    destruct Htasks as [(-> & H0 & H1)|(-> & H0 & H1)];
      destruct Harr as [->| ->]; simpl;
      unfold fetch_single_room_availability; rewrite H0, H1, ?Hfetch; simpl;
      eexists _, _; (split; [reflexivity|]); (split; [done|]);
      rewrite ?app_nil_r; apply list_elem_of_singleton; done. }
  exists recs, out, (fetch_handler (id r1) e).
  split; [done|]. split.
  { unfold fetch_all_rooms_availability. by rewrite Hc. }
  split; [done|]. split; [done|]. split; [done|]. split; [done|].
  apply fetch_handler_names.
Qed.

(** C8. Every record of the accumulated batch carries the id of a room of
    the directory the run was given, and so does every row of the table
    that storing a non-empty batch leaves. *)
Theorem batch_rooms_come_from_directory (room_ids : list RoomRef)
    (net : nat → reply) (arrival : list nat) (db : database) :
  ∃ batch out,
    collect room_ids net arrival [] = (batch, out)
    ∧ Forall (from_directory room_ids) batch
    ∧ (batch ≠ [] →
       ∀ rows,
         table_after (fetch_all_rooms_availability room_ids net arrival db)
         = Some rows →
         Forall (row_from_directory room_ids) rows).
Proof.
  destruct (collect room_ids net arrival []) as [batch out] eqn:Hc.
  exists batch, out. split; [done|].
  pose proof (collect_from_directory _ _ _ _ _ _ Hc (Forall_nil_2 _)) as Hb.
  split; [done|]. intros Hne rows.
  unfold fetch_all_rooms_availability. rewrite Hc.
  destruct (store_availability_to_db batch db) as [[r db'] out2] eqn:Hs.
  unfold table_after. simpl. intros ->.
  assert (table_after (store_availability_to_db batch db) = Some rows) as Ht
    by by rewrite Hs.
  apply store_rows_sound in Ht; [|done].
  eapply Forall_impl; [exact Ht|].
  intros r' (item & t & Hitem & Hco & Hins).
  rewrite Forall_forall in Hb.
  destruct (Hb _ Hitem) as (room & Hroom & Hid).
  exists room. split; [done|].
  apply coerce_item_Ret in Hco as (_ & _ & _ & Hrid).
  rewrite Hid in Hrid. injection Hrid as Hrid.
  unfold insert_row in Hins. rewrite <- Hrid in Hins. simpl in Hins.
  invert_bind Hins as c1 H1. apply adapt_int_Ret in H1 as ->.
  invert_bind Hins as c2 H2. invert_bind Hins as c3 H3.
  invert_bind Hins as c6 H6. invert_bind Hins as c7 H7.
  by injection Hins as <-.
Qed.

(** C7, as the entry point behaves.  When the directory artifact holds an
    empty sequence, the entry point calls neither the orchestrator nor the
    store: whatever the network would do, it returns having printed the one
    line that there are no room ids, the store's line about missing data is
    not printed, and the table is left as it was. *)
Theorem empty_directory_skips_fetch_and_store (net : nat → reply)
    (arrival : list nat) (db : database) :
  main (Loaded []) net arrival db
  = (Ret (), db, [Printed "No room IDs to process."])
  ∧ (Printed "No availability data to store."
     ∉ printed_by (main (Loaded []) net arrival db))
  ∧ table_after (main (Loaded []) net arrival db) = db.
Proof.
  split; [done|]. split; [|done].
  unfold main, printed_by. simpl. intros Hin.
  apply list_elem_of_singleton in Hin. discriminate.
Qed.

End Properties.

(** ** The properties on the sample data *)

Section Instances.
#[local] Existing Instance reference_runtime.

Lemma fetch_failure_logged_and_empty_witness :
  fetch_fails 101 (Body null_subjects_response)
  ∧ ∃ line,
      fetch_single_room_availability 101 (Body null_subjects_response)
      = (Ret [], [line])
      ∧ names_room line 101.
Proof.
  assert (fetch_fails 101 (Body null_subjects_response)) as H.
  { eexists. reflexivity. }
  split; [exact H|].
  exact (fetch_failure_logged_and_empty 101 (Body null_subjects_response) H).
Defined.

Lemma fetch_success_one_record_per_item_witness :
  response_shaped sample_response = true
  ∧ ∃ recs,
      fetch_single_room_availability 202 (Body sample_response)
      = (Ret recs, [])
      ∧ length recs = total_items sample_response.
Proof.
  assert (response_shaped sample_response = true) as H
    by reflexivity.
  split; [exact H|].
  exact (fetch_success_one_record_per_item 202 sample_response H).
Defined.

Lemma store_twice_same_row_count_witness :
  [closed_record] ≠ []
  ∧ row_count (table_after (store_availability_to_db [closed_record]
       (table_after (store_availability_to_db [closed_record] None))))
    = row_count (table_after (store_availability_to_db [closed_record] None)).
Proof.
  assert ([closed_record] ≠ []) as H by discriminate.
  split; [exact H|].
  exact (proj2 (proj2 (store_twice_same_row_count [closed_record] None H))).
Defined.

Lemma all_dropped_still_recreates_table_witness :
  [odd_status_record] ≠ []
  ∧ Forall dropped [odd_status_record]
  ∧ table_after (store_availability_to_db [odd_status_record]
                   (Some [closed_row])) = Some [].
Proof.
  assert ([odd_status_record] ≠ []) as H by discriminate.
  assert (Forall dropped [odd_status_record]) as Hd.
  { constructor; [|constructor]. eexists. split; reflexivity. }
  split; [exact H|]. split; [exact Hd|].
  destruct (proj1 (all_dropped_still_recreates_table [odd_status_record]
                     (Some [closed_row]) H Hd)) as (warnings & Hs & _).
  by rewrite Hs.
Defined.

Lemma one_timeout_one_success_witness :
  ∃ batch out line,
    collect [room_esj; room_iri] one_timeout_net [1; 0]%nat [] = (batch, out)
    ∧ fetch_all_rooms_availability [room_esj; room_iri] one_timeout_net
        [1; 0]%nat None
      = (let '(r, db', out2) := store_availability_to_db batch None in
         (r, db', out ++ out2))
    ∧ length batch = 3%nat
    ∧ Forall (λ rec : gmap string pyval,
                rec !! "room_id" = Some (PyInt 202)) batch
    ∧ line = Printed ("Request error for room " +:+ pretty 101 +:+ ": "
                      +:+ exn_msg timed_out)
    ∧ line ∈ out
    ∧ names_room line 101.
Proof.
  apply (one_timeout_one_success room_esj room_iri timed_out sample_response
           (fetched 202 (Body sample_response)) [room_esj; room_iri]
           one_timeout_net [1; 0]%nat None).
  - reflexivity.
  - reflexivity.
  - reflexivity.
  - left. by repeat split.
  - apply perm_swap.
Defined.

Lemma missing_item_date_is_empty_string_witness :
  ∃ parts,
    fetched 202 (Body sample_response) = concat parts
    ∧ Forall2 (λ subject part,
        subject_records 202 subject = Ret part
        ∧ (lacks_item_date subject →
           Forall (λ r : gmap string pyval,
             r !! "date" = Some (PyStr "")
             ∧ r !! "date" ≠ Some (PyStr "N/A")
             ∧ r !! "date" ≠ Some PyNone) part)
        ∧ (∀ m v, subject = PyDict m → m !! "item_date" = Some v →
           Forall (λ r : gmap string pyval, r !! "date" = Some v) part))
        (subjects_of sample_response) parts.
Proof.
  apply (missing_item_date_is_empty_string 202 sample_response).
  reflexivity.
Defined.

(** C10, as stated, fails in its closing clause: a subject whose
    [item_date] is [null] is fetched without an error, and the date of its
    record is [None], not a string. *)
Lemma null_item_date_is_not_a_string :
  response_shaped null_date_response = true
  ∧ fetch_single_room_availability 101 (Body null_date_response)
    = (Ret (fetched 101 (Body null_date_response)), [])
  ∧ length (fetched 101 (Body null_date_response)) = 1%nat
  ∧ ¬ Forall (λ r : gmap string pyval, ∃ s, r !! "date" = Some (PyStr s))
        (fetched 101 (Body null_date_response)).
Proof.
  split; [reflexivity|]. split; [reflexivity|]. split; [reflexivity|].
  intros H.
  assert (∃ r : gmap string pyval,
            r ∈ fetched 101 (Body null_date_response)
            ∧ r !! "date" = Some PyNone) as (r & Hin & Hdate).
  { eexists. split; [left | reflexivity]. }
  rewrite Forall_forall in H. destruct (H r Hin) as [s Hs].
  rewrite Hdate in Hs. discriminate.
Qed.

(** C7, as stated, fails: on an empty directory the store is never called,
    so its line about missing data is not among the lines printed. *)
Lemma empty_directory_store_line_missing :
  ¬ (Printed "No availability data to store."
     ∈ printed_by (main (Loaded []) one_timeout_net [] None)).
Proof.
  intros H.
  change (Printed "No availability data to store."
          ∈ [Printed "No room IDs to process."]) in H.
  apply list_elem_of_singleton in H. discriminate.
Qed.

(** C5, where the code departs from it.  The fetcher turns a response whose
    first item has [null] for its start into a batch of two records, the
    second of which the coercion accepts; on that batch the store raises the
    [TypeError] of [float(None)], which its [except] clause does not name:
    the function is left with the table recreated and neither record
    inserted. *)
Theorem store_aborts_on_null_start :
  let batch := fetched 101 (Body null_start_response) in
  fetch_single_room_availability 101 (Body null_start_response)
  = (Ret batch, [])
  ∧ length batch = 2%nat
  ∧ (∃ item, batch !! 0%nat = Some item
             ∧ item !! "time_start" = Some PyNone)
  ∧ (∃ item t, batch !! 1%nat = Some item ∧ coerce_item item = Ret t)
  ∧ store_availability_to_db batch (Some [closed_row])
    = (Raise (Exn TypeError
         "float() argument must be a string or a real number, not 'NoneType'"),
       Some [], []).
Proof.
  split; [reflexivity|].
  split; [reflexivity|].
  split; [eexists; split; reflexivity|].
  split; [eexists _, _; split; reflexivity|].
  reflexivity.
Qed.

End Instances.

(** ** Further properties of the fetcher *)

Section FetcherComposition.
Context `{RT : PyRuntime}.

Abbreviation record := (gmap string pyval).

Tactic Notation "invert_bind" hyp(H) "as" ident(a) ident(Ha) :=
  apply bind_Ret in H; destruct H as (a & Ha & H).

(** The dictionary built for an item holds, under each key, the item's value
    or the default. *)
Lemma make_record_fields space_id dt item r :
  make_record space_id dt item = Ret r →
  ∃ m, item = PyDict m
    ∧ r = <["room_id" := PyInt space_id]>
          (<["date" := dt]>
          (<["event_name" := default (PyStr "N/A") (m !! "itemName")]>
          (<["time_start" := default (PyStr "N/A") (m !! "start")]>
          (<["time_end" := default (PyStr "N/A") (m !! "end")]>
          (<["status" := default (PyStr "N/A") (m !! "type_id")]>
          (<["additional_details" := default (PyStr "N/A") (m !! "itemId2")]>
             ∅)))))).
Proof.
  destruct item as [| | | | | |m]; simpl; try discriminate.
  intros [= <-]. by exists m.
Qed.

Lemma make_record_dom space_id dt item r :
  make_record space_id dt item = Ret r → dom r = record_keys.
Proof.
  intros (m & -> & ->)%make_record_fields.
  rewrite !dom_insert_L, dom_empty_L. unfold record_keys. simpl.
  set_solver.
Qed.

Lemma items_loop_built space_id dt items acc out :
  items_loop space_id dt items acc = Ret out →
  ∃ new, out = acc ++ new
    ∧ Forall2 (λ item r, make_record space_id dt item = Ret r) items new.
Proof.
  revert acc. induction items as [|item rest IH]; intros acc H; simpl in H.
  - injection H as <-. exists []. by rewrite app_nil_r.
  - invert_bind H as r Hr.
    apply IH in H as (new & -> & Hnew).
    exists (r :: new). rewrite <- app_assoc. split; [done|].
    by constructor.
Qed.

Lemma subject_records_built space_id subject part :
  subject_records space_id subject = Ret part →
  Forall2 (λ item r, make_record space_id (subject_date subject) item = Ret r)
    (items_of subject) part.
Proof.
  unfold subject_records, subject_body. intros H.
  invert_bind H as dt Hdt. apply py_get_Ret in Hdt as (m & -> & ->).
  invert_bind H as its Hits. apply py_get_Ret in Hits as (m' & [= <-] & ->).
  invert_bind H as items Hitems.
  pose proof (items_loop_Ret _ _ _ _ _ H) as (new' & _ & _ & Hd & _).
  apply items_loop_built in H as (new & -> & Hnew). simpl.
  apply (py_iter_dicts _ _
           (λ v, match v with PyList l => l | _ => [] end)) in Hitems;
    [| done | by intros [] | done].
  subst items.
  by destruct (m !! "items") as [[]|].
Qed.

(** Every record the fetcher returns was built from some item. *)
Lemma fetch_records_built space_id r result out :
  fetch_single_room_availability space_id r = (Ret result, out) →
  Forall (λ rec, ∃ dt item, make_record space_id dt item = Ret rec) result.
Proof.
  unfold fetch_single_room_availability.
  destruct r as [e|data]; [by intros [= <- _]|].
  destruct (parse_response space_id data) as [a|e] eqn:Hp;
    [|by intros [= <- _]].
  intros [= <- _].
  apply parse_response_Ret in Hp as (parts & -> & Hall).
  apply Forall_concat.
  induction Hall as [|s p ss ps Hs _ IH]; constructor; [|done].
  apply subject_records_built in Hs.
  clear -Hs. induction Hs as [|item rec items recs Hrec _ IH];
    constructor; [by eexists _, _ | done].
Qed.

(** X1. The records of a successful fetch come in the order of the
    response: subject by subject and, within a subject, item by item, each
    record being the dictionary built from its item and from the date of its
    subject. *)
Theorem fetch_records_in_response_order (space_id : Z) (data : pyval)
    (recs : list record) :
  fetch_single_room_availability space_id (Body data) = (Ret recs, []) →
  ∃ parts,
    recs = concat parts
    ∧ Forall2 (λ subject part,
        Forall2 (λ item r,
          make_record space_id (subject_date subject) item = Ret r)
          (items_of subject) part)
        (subjects_of data) parts.
Proof.
  intros (parts & -> & Hall)%fetch_unlogged%parse_response_Ret.
  exists parts. split; [done|].
  eapply Forall2_impl; [exact Hall|].
  intros subject part Hpart. by apply subject_records_built.
Qed.

(** X2. Whatever the reply, every record the fetcher returns has exactly
    the seven keys of the dictionary literal, so each of the lookups the
    store performs on it finds a value. *)
Theorem fetched_records_have_all_keys (space_id : Z) (r : reply)
    (result : list record) (out : list log_line) :
  fetch_single_room_availability space_id r = (Ret result, out) →
  Forall (λ rec : record,
    dom rec = record_keys
    ∧ ∀ k, k ∈ record_keys → ∃ v, py_index rec k = Ret v) result.
Proof.
  intros Hbuilt%fetch_records_built.
  eapply Forall_impl; [exact Hbuilt|].
  intros rec (dt & item & Hrec). apply make_record_dom in Hrec.
  split; [done|]. intros k Hk. rewrite <- Hrec in Hk.
  apply elem_of_dom in Hk as [v Hv]. exists v. by apply py_index_Ret.
Qed.

Lemma record_lookups space_id dt (m : gmap string pyval) r :
  make_record space_id dt (PyDict m) = Ret r →
  r !! "event_name" = Some (default (PyStr "N/A") (m !! "itemName"))
  ∧ r !! "time_start" = Some (default (PyStr "N/A") (m !! "start"))
  ∧ r !! "time_end" = Some (default (PyStr "N/A") (m !! "end"))
  ∧ r !! "status" = Some (default (PyStr "N/A") (m !! "type_id"))
  ∧ r !! "additional_details" = Some (default (PyStr "N/A") (m !! "itemId2")).
Proof. intros [= <-]. by repeat split. Qed.

Lemma coerce_item_texts item t :
  coerce_item item = Ret t →
  item !! "date" = Some (p_date t)
  ∧ item !! "event_name" = Some (p_event_name t)
  ∧ item !! "additional_details" = Some (p_additional_details t).
Proof.
  unfold coerce_item. intros H.
  invert_bind H as ts Hts. invert_bind H as te Hte.
  invert_bind H as st Hst. invert_bind H as rid Hrid.
  invert_bind H as dt Hdt. invert_bind H as ev Hev.
  invert_bind H as ad Had. injection H as <-. simpl.
  by rewrite <- !py_index_Ret.
Qed.

Lemma insert_row_Ret key t r :
  insert_row key t = Ret r →
  row_id r = key
  ∧ adapt (p_room_id t) = Ret (room_id r)
  ∧ adapt (p_date t) = Ret (date r)
  ∧ adapt (p_event_name t) = Ret (event_name r)
  ∧ time_start r = adapt_float (p_time_start t)
  ∧ time_end r = adapt_float (p_time_end t)
  ∧ adapt_status (p_status t) = Ret (status r)
  ∧ adapt (p_additional_details t) = Ret (additional_details r).
Proof.
  unfold insert_row. intros H.
  invert_bind H as c1 H1. invert_bind H as c2 H2.
  invert_bind H as c3 H3. invert_bind H as c6 H6.
  invert_bind H as c7 H7. injection H as <-. simpl. by repeat split.
Qed.

(** The record built for an item without [start] is coerced and bound with
    NULL for [time_start]; likewise [end] and [type_id]. *)
Lemma missing_numbers_coerce_to_null (space_id : Z) (dt : pyval)
    (m : gmap string pyval) (r : record) (t : prepared) (key : Z)
    (stored : row) :
  make_record space_id dt (PyDict m) = Ret r →
  coerce_item r = Ret t →
  insert_row key t = Ret stored →
  (m !! "start" = None → time_start stored = SqlNull)
  ∧ (m !! "end" = None → time_end stored = SqlNull)
  ∧ (m !! "type_id" = None → status stored = SqlNull).
Proof.
  intros (_ & Hs & He & Hst & _)%record_lookups
         (Hts & Hte & Hstat & _)%coerce_item_Ret
         (_ & _ & _ & _ & Rs & Re & Rst & _)%insert_row_Ret.
  split; [|split]; intros Hm; rewrite Hm in *; simpl in *.
  - rewrite convert_unless_na_sentinel in Hts by done.
    injection Hts as Hts. by rewrite Rs, <- Hts.
  - rewrite convert_unless_na_sentinel in Hte by done.
    injection Hte as Hte. by rewrite Re, <- Hte.
  - rewrite convert_unless_na_sentinel in Hstat by done.
    injection Hstat as Hstat. rewrite <- Hstat in Rst. by injection Rst.
Qed.

(** The record built for an item without [itemName] is coerced and bound
    with the text ["N/A"] for the event name; likewise [itemId2]. *)
Lemma missing_texts_keep_sentinel (space_id : Z) (dt : pyval)
    (m : gmap string pyval) (r : record) (t : prepared) (key : Z)
    (stored : row) :
  make_record space_id dt (PyDict m) = Ret r →
  coerce_item r = Ret t →
  insert_row key t = Ret stored →
  (m !! "itemName" = None → event_name stored = SqlText "N/A")
  ∧ (m !! "itemId2" = None → additional_details stored = SqlText "N/A").
Proof.
  intros (Hn & _ & _ & _ & Hd)%record_lookups
         (_ & Hev & Had)%coerce_item_texts
         (_ & _ & _ & Rn & _ & _ & _ & Rd)%insert_row_Ret.
  split; intros Hm; rewrite Hm in *; simpl in *.
  - rewrite Hn in Hev. injection Hev as Hev. rewrite <- Hev in Rn.
    by injection Rn.
  - rewrite Hd in Had. injection Had as Had. rewrite <- Had in Rd.
    by injection Rd.
Qed.

End FetcherComposition.

(** ** Further properties of the store *)

Section StoreAccounting.
Context `{RT : PyRuntime}.

Abbreviation record := (gmap string pyval).

Tactic Notation "invert_bind" hyp(H) "as" ident(a) ident(Ha) :=
  apply bind_Ret in H; destruct H as (a & Ha & H).

(** When the loop completes it kept the coercions of the records that have
    one, in order, and printed one warning for each of the others. *)
Lemma prepare_loop_survivors data acc records out :
  prepare_loop data acc = (Ret records, out) →
  records = acc ++ omap coerced data
  ∧ Forall (λ l, is_item_warning l = true) out
  ∧ (length (omap coerced data) + length out = length data)%nat
  ∧ existsb aborts data = false.
Proof.
  revert acc records out.
  induction data as [|item rest IH]; intros acc records out H.
  - injection H as <- <-. by rewrite app_nil_r.
  - cbn [prepare_loop] in H. cbn [omap list_omap existsb length].
    destruct (coerce_item item) as [t|e] eqn:Hc.
    + assert (coerced item = Some t) as -> by (unfold coerced; by rewrite Hc).
      assert (aborts item = false) as -> by (unfold aborts; by rewrite Hc).
      apply IH in H as (-> & Hw & Hlen & Hab). rewrite <- app_assoc.
      cbn [length app orb]. split; [done|]. split; [done|].
      split; [lia | done].
    + destruct (store_catches e) eqn:Hcatch; [|done].
      assert (coerced item = None) as -> by (unfold coerced; by rewrite Hc).
      assert (aborts item = false) as ->
        by (unfold aborts; by rewrite Hc, Hcatch).
      destruct (prepare_loop rest acc) as [r out'] eqn:Hp.
      injection H as -> <-.
      apply IH in Hp as (-> & Hw & Hlen & Hab). cbn [length orb].
      split; [done|]. split; [by constructor|].
      split; [lia | done].
Qed.

(** When the loop raises, it is on a record whose coercion raises an
    exception that the handler does not name. *)
Lemma prepare_loop_raises data acc e out :
  prepare_loop data acc = (Raise e, out) →
  store_catches e = false
  ∧ (∃ item, item ∈ data ∧ coerce_item item = Raise e)
  ∧ Forall (λ l, is_item_warning l = true) out
  ∧ existsb aborts data = true.
Proof.
  revert acc out. induction data as [|item rest IH]; intros acc out H;
    [done|].
  cbn [prepare_loop] in H. cbn [existsb].
  destruct (coerce_item item) as [t|e'] eqn:Hc.
  - apply IH in H as (Hcatch & (item' & Hin & Hraise) & Hw & Hab).
    rewrite Hab, orb_true_r.
    split; [done|]. split; [|by split].
    exists item'. split; [by right | done].
  - destruct (store_catches e') eqn:Hcatch'.
    + destruct (prepare_loop rest acc) as [r out'] eqn:Hp.
      injection H as -> <-.
      apply IH in Hp as (Hcatch & (item' & Hin & Hraise) & Hw & Hab).
      rewrite Hab, orb_true_r.
      split; [done|]. split; [|split; [by constructor | done]].
      exists item'. split; [by right | done].
    + injection H as <- <-.
      assert (aborts item = true) as ->
        by (unfold aborts; by rewrite Hc, Hcatch').
      split; [done|]. split; [|by split].
      exists item. split; [left | done].
Qed.

(** Whether a tuple can be bound does not depend on the key it would get. *)
Lemma insert_row_binds key t :
  binds t = true ↔ ∃ r, insert_row key t = Ret r.
Proof.
  unfold binds, insert_row.
  destruct (adapt (p_room_id t)); simpl; [|split; [done | by intros [? ?]]].
  destruct (adapt (p_date t)); simpl; [|split; [done | by intros [? ?]]].
  destruct (adapt (p_event_name t)); simpl;
    [|split; [done | by intros [? ?]]].
  destruct (adapt_status (p_status t)); simpl;
    [|split; [done | by intros [? ?]]].
  destruct (adapt (p_additional_details t)); simpl;
    [|split; [done | by intros [? ?]]].
  split; [by eexists | done].
Qed.

(** The rows inserted match the tuples one to one, in order, and take the
    keys that follow those of the rows already there. *)
Lemma executemany_rows records rows0 rows :
  executemany records rows0 = Ret rows →
  ∃ new, rows = rows0 ++ new
    ∧ Forall2 (λ t r, insert_row (row_id r) t = Ret r) records new
    ∧ row_id <$> new
      = (λ i, Z.of_nat i) <$> seq (S (length rows0)) (length records)
    ∧ existsb (λ t, negb (binds t)) records = false.
Proof.
  revert rows0 rows.
  induction records as [|t rest IH]; intros rows0 rows H; simpl in H.
  - injection H as <-. exists []. by rewrite app_nil_r.
  - invert_bind H as r Hr.
    apply IH in H as (new & -> & Hnew & Hkeys & Hb). exists (r :: new).
    rewrite <- app_assoc.
    pose proof (insert_row_Ret _ _ _ Hr) as (Hid & _).
    assert (binds t = true) as Hbt.
    { apply (insert_row_binds (Z.of_nat (length rows0) + 1) t). eauto. }
    split; [done|]. split; [|split].
    + constructor; [by rewrite Hid | done].
    + cbn [fmap list_fmap length seq]. rewrite Hkeys, Hid, length_app.
      cbn [length]. f_equal; [lia|].
      by replace (length rows0 + 1)%nat with (S (length rows0)) by lia.
    + cbn [existsb]. by rewrite Hbt.
Qed.

Lemma executemany_raises records rows0 e :
  executemany records rows0 = Raise e →
  existsb (λ t, negb (binds t)) records = true.
Proof.
  revert rows0. induction records as [|t rest IH]; intros rows0 H;
    simpl in H; [done|].
  simpl. destruct (insert_row _ t) as [r|e'] eqn:Hr; simpl in H.
  - apply IH in H. rewrite H. by rewrite orb_true_r.
  - destruct (binds t) eqn:Hb; [|done].
    apply (insert_row_binds (Z.of_nat (length rows0) + 1)) in Hb as [r' Hr'].
    congruence.
Qed.

(** The number of rows the store leaves, read off the batch alone. *)
Lemma store_rows_left batch db :
  batch ≠ [] →
  row_count (table_after (store_availability_to_db batch db))
  = Some (rows_left batch).
Proof.
  destruct batch as [|item rest]; [done|]. intros _.
  unfold store_availability_to_db, rows_left.
  destruct (prepare_loop (item :: rest) []) as [[records|e] out] eqn:Hp.
  - apply prepare_loop_survivors in Hp as (-> & _ & _ & ->).
    rewrite app_nil_l. generalize (omap coerced (item :: rest)).
    intros [|t ts]; [done|].
    destruct (executemany (t :: ts) []) as [rows|e] eqn:He.
    + apply executemany_rows in He as (new & -> & Hnew & _ & ->).
      unfold table_after, row_count. cbn [fst snd fmap option_fmap option_map orb].
      by rewrite app_nil_l, (Forall2_length _ _ _ Hnew).
    + apply executemany_raises in He. by rewrite He.
  - apply prepare_loop_raises in Hp as (_ & _ & _ & ->). done.
Qed.

(** X5. When storing a non-empty batch ends with rows in the table, every
    record of the batch is accounted for: the rows and the warnings printed
    for dropped records together number the records of the batch, and the
    last line printed reports the number of rows. *)
Theorem every_record_inserted_or_warned (batch : list record) (db : database)
    (rows : list row) (out : list log_line) :
  batch ≠ [] →
  rows ≠ [] →
  store_availability_to_db batch db = (Ret (), Some rows, out) →
  ∃ warnings,
    out = warnings
          ++ [Printed ("Inserted " +:+ pretty (length rows)
                       +:+ " records into the database.")]
    ∧ Forall (λ l, is_item_warning l = true) warnings
    ∧ (length rows + length warnings = length batch)%nat.
Proof.
  destruct batch as [|item rest]; [done|]. intros _ Hrows.
  unfold store_availability_to_db.
  destruct (prepare_loop (item :: rest) []) as [[records|e] out'] eqn:Hp;
    [|done].
  apply prepare_loop_survivors in Hp as (-> & Hw & Hlen & _).
  rewrite app_nil_l. revert Hlen. generalize (omap coerced (item :: rest)).
  intros [|t ts] Hlen; [by intros [= <- _]|].
  destruct (executemany (t :: ts) []) as [rows'|e] eqn:He;
    [|by intros [= <- _]].
  intros [= <- <-].
  apply executemany_rows in He as (new & -> & Hnew & _ & _).
  apply Forall2_length in Hnew. rewrite app_nil_l.
  exists out'. rewrite <- Hnew. split; [done|]. split; [done|].
  by rewrite <- Hlen.
Qed.

(** X6. When storing a non-empty batch ends with rows in the table, the
    rows are the records that survive the coercion, in the order of the
    batch, and their keys count up from 1. *)
Theorem rows_are_survivors_in_order (batch : list record) (db : database)
    (rows : list row) (out : list log_line) :
  batch ≠ [] →
  rows ≠ [] →
  store_availability_to_db batch db = (Ret (), Some rows, out) →
  Forall2 (λ t r, insert_row (row_id r) t = Ret r) (omap coerced batch) rows
  ∧ row_id <$> rows = (λ i, Z.of_nat i) <$> seq 1 (length rows).
Proof.
  destruct batch as [|item rest]; [done|]. intros _ Hrows.
  unfold store_availability_to_db.
  destruct (prepare_loop (item :: rest) []) as [[records|e] out'] eqn:Hp;
    [|done].
  apply prepare_loop_survivors in Hp as (-> & _ & _ & _).
  rewrite app_nil_l. generalize (omap coerced (item :: rest)).
  intros [|t ts]; [by intros [= <- _]|].
  destruct (executemany (t :: ts) []) as [rows'|e] eqn:He;
    [|by intros [= <- _]].
  intros [= <- _].
  apply executemany_rows in He as (new & -> & Hnew & Hkeys & _).
  rewrite app_nil_l. split; [done|].
  by rewrite Hkeys, (Forall2_length _ _ _ Hnew).
Qed.

(** X7. Insertion is all or nothing: when a record of the batch survives
    the coercion with a value that cannot be bound (an array or an object, or
    an integer beyond 64 bits), the table is left empty, whatever the other
    records are. *)
Theorem unbindable_record_empties_table (batch : list record) (db : database)
    (item : record) (t : prepared) :
  item ∈ batch →
  coerce_item item = Ret t →
  unbindable t →
  table_after (store_availability_to_db batch db) = Some [].
Proof.
  intros Hin Hc Hun.
  assert (batch ≠ []) as Hne by (intros ->; by apply not_elem_of_nil in Hin).
  pose proof (store_rows_left batch db Hne) as Hcount.
  destruct (store_leaves_a_table batch db Hne) as [rows Hrows].
  rewrite Hrows in Hcount |- *. f_equal.
  assert (rows_left batch = 0%nat) as Hzero.
  { unfold rows_left.
    assert (existsb (λ t, negb (binds t)) (omap coerced batch) = true) as ->.
    { apply existsb_exists. exists t. split.
      - apply list_elem_of_In, list_elem_of_omap. exists item.
        split; [done|]. unfold coerced. by rewrite Hc.
      - destruct (binds t) eqn:Hb; [|done].
        apply (insert_row_binds 0) in Hb as [r Hr].
        destruct (Hun 0) as [e He]. congruence. }
    by rewrite orb_true_r. }
  rewrite Hzero in Hcount. injection Hcount as Hcount.
  by apply nil_length_inv.
Qed.

(** X8. When the store raises, the table has already been dropped and
    recreated and is left empty; the exception comes from the coercion of a
    record of the batch and is not one the handler names; only warnings
    were printed. *)
Theorem store_raises_after_recreating (batch : list record) (db db' : database)
    (e : exn) (out : list log_line) :
  store_availability_to_db batch db = (Raise e, db', out) →
  db' = Some []
  ∧ store_catches e = false
  ∧ (∃ item, item ∈ batch ∧ coerce_item item = Raise e)
  ∧ Forall (λ l, is_item_warning l = true) out.
Proof.
  destruct batch as [|item rest]; [done|].
  unfold store_availability_to_db.
  destruct (prepare_loop (item :: rest) []) as [[records|e'] out'] eqn:Hp.
  - destruct records as [|t ts]; [done|].
    by destruct (executemany (t :: ts) []).
  - intros [= <- <- <-].
    by apply prepare_loop_raises in Hp as (? & ? & ? & _).
Qed.

End StoreAccounting.

(** ** Further properties of the orchestrator and of the entry point *)

Section CompletionOrder.
Context `{RT : PyRuntime}.

Abbreviation record := (gmap string pyval).

Lemma concat_perm {A} (l1 l2 : list (list A)) :
  l1 ≡ₚ l2 → concat l1 ≡ₚ concat l2.
Proof.
  induction 1 as [|x l l' _ IH|x y l|l l' l'' _ IH1 _ IH2]; simpl.
  - done.
  - by rewrite IH.
  - rewrite !app_assoc. apply Permutation_app_tail, Permutation_app_comm.
  - by rewrite IH1.
Qed.

Lemma existsb_perm {A} (f : A → bool) (l1 l2 : list A) :
  l1 ≡ₚ l2 → existsb f l1 = existsb f l2.
Proof.
  induction 1 as [|x l l' _ IH|x y l|l l' l'' _ IH1 _ IH2]; simpl.
  - done.
  - by rewrite IH.
  - by destruct (f x), (f y).
  - by rewrite IH1.
Qed.

Lemma rows_left_perm (batch1 batch2 : list record) :
  batch1 ≡ₚ batch2 → rows_left batch1 = rows_left batch2.
Proof.
  intros Hp. unfold rows_left.
  assert (omap coerced batch1 ≡ₚ omap coerced batch2) as Ho by by rewrite Hp.
  by rewrite (existsb_perm _ _ _ Hp), (existsb_perm _ _ _ Ho),
    (Permutation_length Ho).
Qed.

(** What a failed fetch returns. *)
Lemma failed_fetch space_id r :
  fetch_fails space_id r →
  ∃ e, fetch_single_room_availability space_id r
       = (Ret [], [fetch_handler space_id e]).
Proof.
  unfold fetch_single_room_availability.
  destruct r as [e|data]; simpl; [by exists e|].
  intros [e ->]. by exists e.
Qed.

(** The loop in closed form. *)
Lemma collect_concat room_ids net arrival acc :
  collect room_ids net arrival acc
  = (acc ++ concat (task_records room_ids net <$> arrival),
     concat (task_lines room_ids net <$> arrival)).
Proof.
  revert acc. induction arrival as [|i rest IH]; intros acc; simpl.
  - by rewrite app_nil_r.
  - unfold task_records at 1, task_lines at 1.
    destruct (room_ids !! i) as [room|]; [|by rewrite IH].
    destruct (fetch_returns (id room) (net i)) as (result & out & ->).
    rewrite IH. simpl. f_equal.
    destruct result; [done | by rewrite <- app_assoc].
Qed.

(** X9. The batch handed to the store is the concatenation, in completion
    order, of what each task returned, so the records of one room stay
    together and in the order the fetcher gave them; its size is the sum of
    the sizes of those lists; and the orchestrator ends as the store does on
    that batch, with the same result and the same table. *)
Theorem batch_is_results_in_completion_order (room_ids : list RoomRef)
    (net : nat → reply) (arrival : list nat) (db : database) :
  let batch := concat (task_records room_ids net <$> arrival) in
  (collect room_ids net arrival []).1 = batch
  ∧ length batch
    = sum_list (length <$> (task_records room_ids net <$> arrival))
  ∧ (fetch_all_rooms_availability room_ids net arrival db).1
    = (store_availability_to_db batch db).1.
Proof.
  intros batch.
  assert ((collect room_ids net arrival []).1 = batch) as Hc
    by by rewrite collect_concat.
  split; [exact Hc|]. split.
  - unfold batch. clear Hc batch.
    induction arrival as [|i rest IH]; [done|].
    cbn [fmap list_fmap concat sum_list sum_list_with].
    by rewrite length_app, IH.
  - unfold fetch_all_rooms_availability.
    destruct (collect room_ids net arrival []) as [b lines].
    simpl in Hc. subst b.
    by destruct (store_availability_to_db batch db) as [[r db'] out].
Qed.

(** X10. The completion order decides the order of the batch and nothing
    else: two runs that differ only in the order in which the tasks complete
    collect the same records and print the same lines, up to order. *)
Theorem completion_order_only_permutes (room_ids : list RoomRef)
    (net : nat → reply) (arrival1 arrival2 : list nat) :
  arrival1 ≡ₚ arrival2 →
  (collect room_ids net arrival1 []).1 ≡ₚ (collect room_ids net arrival2 []).1
  ∧ (collect room_ids net arrival1 []).2
    ≡ₚ (collect room_ids net arrival2 []).2.
Proof.
  intros Hp. rewrite !collect_concat. simpl.
  split; apply concat_perm; by rewrite Hp.
Qed.

Lemma fetch_all_table room_ids net arrival db :
  table_after (fetch_all_rooms_availability room_ids net arrival db)
  = table_after
      (store_availability_to_db (collect room_ids net arrival []).1 db).
Proof.
  unfold fetch_all_rooms_availability.
  destruct (collect room_ids net arrival []) as [batch out1]. simpl.
  by destruct (store_availability_to_db batch db) as [[r db'] out2].
Qed.

(** X11. The number of rows the pipeline leaves in the table does not
    depend on the order in which the tasks complete. *)
Theorem row_count_independent_of_completion_order (room_ids : list RoomRef)
    (net : nat → reply) (arrival1 arrival2 : list nat) (db : database) :
  arrival1 ≡ₚ arrival2 →
  row_count (table_after
               (fetch_all_rooms_availability room_ids net arrival1 db))
  = row_count (table_after
                 (fetch_all_rooms_availability room_ids net arrival2 db)).
Proof.
  intros Hp. rewrite !fetch_all_table.
  assert ((collect room_ids net arrival1 []).1
          ≡ₚ (collect room_ids net arrival2 []).1) as Hb.
  { rewrite !collect_concat. simpl. apply concat_perm. by rewrite Hp. }
  destruct ((collect room_ids net arrival1 []).1) as [|rec1 batch1] eqn:H1.
  - apply Permutation_nil in Hb. by rewrite Hb.
  - destruct ((collect room_ids net arrival2 []).1) as [|rec2 batch2] eqn:H2.
    + symmetry in Hb. by apply Permutation_nil in Hb.
    + rewrite !store_rows_left by done. f_equal. by apply rows_left_perm.
Qed.


(** X13. A total outage does not cost the previous data: when the fetch of
    every room fails, the entry point prints one line per room, each room
    being named by one of them, then the line that there is nothing to
    store, and leaves the table as it was. *)
Theorem total_outage_keeps_previous_table (room_ids : list RoomRef)
    (net : nat → reply) (arrival : list nat) (db : database) :
  room_ids ≠ [] →
  (∀ i room, room_ids !! i = Some room → fetch_fails (id room) (net i)) →
  arrival ≡ₚ seq 0 (length room_ids) →
  ∃ lines,
    main (Loaded room_ids) net arrival db
    = (Ret (), db, lines ++ [Printed "No availability data to store."])
    ∧ length lines = length room_ids
    ∧ ∀ room, room ∈ room_ids →
        ∃ line, line ∈ lines ∧ names_room line (id room).
Proof.
  intros Hne Hfail Harr.
  assert (∀ i, task_records room_ids net i = []) as Hrec.
  { intros i. unfold task_records.
    destruct (room_ids !! i) as [room|] eqn:Hi; [|done].
    destruct (failed_fetch _ _ (Hfail _ _ Hi)) as [e ->]. done. }
  assert (∀ i room, room_ids !! i = Some room →
            ∃ e, task_lines room_ids net i = [fetch_handler (id room) e])
    as Hline.
  { intros i room Hi. unfold task_lines. rewrite Hi.
    destruct (failed_fetch _ _ (Hfail _ _ Hi)) as [e ->]. by exists e. }
  assert (concat (task_records room_ids net <$> arrival) = []) as Hbatch.
  { clear -Hrec. induction arrival as [|i l IH]; [done|].
    cbn [fmap list_fmap concat]. rewrite Hrec. exact IH. }
  exists (concat (task_lines room_ids net <$> arrival)).
  split; [|split].
  - unfold main, fetch_all_rooms_availability.
    rewrite collect_concat, Hbatch.
    by destruct room_ids as [|room rest].
  - transitivity (length arrival); [|by rewrite Harr, length_seq].
    assert (Forall (λ i, (i < length room_ids)%nat) arrival) as Hin.
    { apply Forall_forall. intros i Hi. rewrite Harr in Hi.
      apply elem_of_seq in Hi. lia. }
    clear Harr Hbatch. induction Hin as [|i l Hi _ IH]; [done|].
    apply lookup_lt_is_Some_2 in Hi as [room Hroom].
    destruct (Hline _ _ Hroom) as [e He].
    cbn [fmap list_fmap concat]. rewrite He. cbn [app length].
    f_equal. exact IH.
  - intros room [i Hi]%list_elem_of_lookup_1.
    destruct (Hline _ _ Hi) as [e He].
    exists (fetch_handler (id room) e). split; [|apply fetch_handler_names].
    assert (i ∈ arrival) as Hia.
    { rewrite Harr. apply elem_of_seq. apply lookup_lt_Some in Hi. lia. }
    apply list_elem_of_In, in_concat.
    exists (task_lines room_ids net i). split.
    + apply list_elem_of_In, list_elem_of_fmap. by exists i.
    + rewrite He. by left.
Qed.

End CompletionOrder.

(** ** Properties of the room listing script *)

Section RoomListing.
Context `{RT : PyRuntime}.
Context (float_nonzero : pyfloat → bool).

Abbreviation record := (gmap string pyval).

Tactic Notation "invert_bind" hyp(H) "as" ident(a) ident(Ha) :=
  apply bind_Ret in H; destruct H as (a & Ha & H).

Lemma rooms_loop_omap rooms acc :
  rooms_loop float_nonzero rooms acc
  = acc ++ omap (room_entry float_nonzero) rooms.
Proof.
  revert acc. induction rooms as [|room rest IH]; intros acc.
  - by rewrite app_nil_r.
  - cbn [rooms_loop omap list_omap]. rewrite IH.
    destruct (room_entry float_nonzero room); [|done].
    by rewrite <- app_assoc.
Qed.

Lemma rows_loop_Ret rows acc out :
  rows_loop float_nonzero rows acc = Ret out →
  ∃ listed,
    Forall2 (λ row_entry rooms,
      (r ← py_get row_entry "row" (PyList []); py_iter r) = Ret rooms)
      rows listed
    ∧ out = acc ++ omap (room_entry float_nonzero) (concat listed).
Proof.
  revert acc out. induction rows as [|row_entry rest IH]; intros acc out H.
  - injection H as <-. exists []. split; [constructor|].
    by rewrite app_nil_r.
  - cbn [rows_loop] in H.
    invert_bind H as r Hr. invert_bind H as rooms Hrooms.
    apply IH in H as (listed & Hall & ->).
    exists (rooms :: listed). split.
    + constructor; [|done]. by rewrite Hr.
    + cbn [concat]. by rewrite rooms_loop_omap, omap_app, app_assoc.
Qed.

Lemma room_entry_Some room entry :
  room_entry float_nonzero room = Some entry →
  ∃ m v, room = PyDict m
    ∧ m !! "itemId" = Some v
    ∧ py_truthy float_nonzero v = true
    ∧ entry = <["id" := v]> (<["name" := default PyNone (m !! "itemName")]> ∅).
Proof.
  destruct room as [| | | | | |m]; try discriminate. simpl.
  destruct (m !! "itemId") as [v|] eqn:Hv; simpl; [|done].
  destruct (py_truthy float_nonzero v) eqn:Ht; [|done].
  intros [= <-]. by exists m, v.
Qed.

(** X14. The list written to [room_ids.json] holds, in the order of the
    listing, one entry for each element of each row that is a dictionary
    with a truthy [itemId]; the other elements are passed over. *)
Theorem room_ids_are_listed_rooms_in_order (data : pyval)
    (room_ids : list record) :
  extract_room_ids float_nonzero data = Ret room_ids →
  ∃ rows listed,
    (rs ← py_get data "rows" (PyList []); py_iter rs) = Ret rows
    ∧ Forall2 (λ row_entry rooms,
        (r ← py_get row_entry "row" (PyList []); py_iter r) = Ret rooms)
        rows listed
    ∧ room_ids = omap (room_entry float_nonzero) (concat listed).
Proof.
  unfold extract_room_ids. intros H.
  invert_bind H as rs Hrs. invert_bind H as rows Hrows.
  apply rows_loop_Ret in H as (listed & Hall & ->).
  exists rows, listed. split; [by rewrite Hrs|]. by split.
Qed.

(** X15. When the script writes [room_ids.json] it returns normally, and
    every entry written has exactly the keys [id] and [name], with for [id]
    the truthy [itemId] of an element of the listing: never [None], zero or
    the empty string. *)
Theorem written_rooms_have_ids (r : listing_reply) (result : res ())
    (room_ids : list record) (out : list log_line) :
  fetch_all_room_ids float_nonzero r = (result, Some room_ids, out) →
  result = Ret ()
  ∧ Forall (λ entry : record,
      dom entry = {["id"; "name"]}
      ∧ ∃ v, entry !! "id" = Some v ∧ py_truthy float_nonzero v = true
             ∧ v ≠ PyNone ∧ v ≠ PyInt 0 ∧ v ≠ PyStr "") room_ids.
Proof.
  unfold fetch_all_room_ids.
  destruct r as [e|status_code [data|e]]; [done| |by case_bool_decide].
  case_bool_decide; [|done].
  destruct (extract_room_ids float_nonzero data) as [ids|e] eqn:Hx; [|done].
  intros [= <- <- _]. split; [done|].
  unfold extract_room_ids in Hx.
  invert_bind Hx as rs Hrs. invert_bind Hx as rows Hrows.
  apply rows_loop_Ret in Hx as (listed & _ & ->).
  apply Forall_forall. intros entry (room & _ & Hroom)%list_elem_of_omap.
  apply room_entry_Some in Hroom as (m & v & _ & _ & Htruthy & ->).
  split.
  - rewrite !dom_insert_L, dom_empty_L. set_solver.
  - exists v. split; [done|]. split; [done|].
    repeat split; intros ->; discriminate.
Qed.

End RoomListing.

(** ** The further properties on the sample data *)

Section FurtherInstances.
#[local] Existing Instance reference_runtime.

Lemma fetch_records_in_response_order_witness :
  ∃ parts,
    fetched 202 (Body sample_response) = concat parts
    ∧ Forall2 (λ subject part,
        Forall2 (λ item r,
          make_record 202 (subject_date subject) item = Ret r)
          (items_of subject) part)
        (subjects_of sample_response) parts.
Proof.
  apply (fetch_records_in_response_order 202 sample_response).
  reflexivity.
Defined.

Lemma fetched_records_have_all_keys_witness :
  Forall (λ rec : gmap string pyval,
    dom rec = record_keys
    ∧ ∀ k, k ∈ record_keys → ∃ v, py_index rec k = Ret v)
    (fetched 202 (Body sample_response)).
Proof.
  apply (fetched_records_have_all_keys 202 (Body sample_response) _ []).
  reflexivity.
Defined.

Lemma every_record_inserted_or_warned_witness :
  ∃ warnings,
    printed_by (store_availability_to_db [closed_record; odd_status_record]
                  None)
    = warnings
      ++ [Printed ("Inserted " +:+ pretty (length [closed_row])
                   +:+ " records into the database.")]
    ∧ Forall (λ l, is_item_warning l = true) warnings
    ∧ (length [closed_row] + length warnings
       = length [closed_record; odd_status_record])%nat.
Proof.
  apply (every_record_inserted_or_warned [closed_record; odd_status_record]
           None [closed_row]).
  - discriminate.
  - discriminate.
  - reflexivity.
Defined.

Lemma rows_are_survivors_in_order_witness :
  Forall2 (λ t r, insert_row (row_id r) t = Ret r)
    (omap coerced [closed_record; odd_status_record]) [closed_row]
  ∧ row_id <$> [closed_row]
    = (λ i, Z.of_nat i) <$> seq 1 (length [closed_row]).
Proof.
  apply (rows_are_survivors_in_order [closed_record; odd_status_record] None
           [closed_row]
           (printed_by (store_availability_to_db
                          [closed_record; odd_status_record] None))).
  - discriminate.
  - discriminate.
  - reflexivity.
Defined.

Lemma unbindable_record_empties_table_witness :
  table_after (store_availability_to_db [closed_record; array_name_record]
                 (Some [closed_row]))
  = Some [].
Proof.
  apply (unbindable_record_empties_table [closed_record; array_name_record]
           (Some [closed_row]) array_name_record array_name_prepared).
  - right. left.
  - reflexivity.
  - intros key. eexists. reflexivity.
Defined.

Lemma store_raises_after_recreating_witness :
  Some [] = Some ([] : list row)
  ∧ store_catches
      (Exn TypeError
         "float() argument must be a string or a real number, not 'NoneType'")
    = false
  ∧ (∃ item, item ∈ fetched 101 (Body null_start_response)
       ∧ coerce_item item
         = Raise (Exn TypeError
             "float() argument must be a string or a real number, not 'NoneType'"))
  ∧ Forall (λ l, is_item_warning l = true) [].
Proof.
  apply (store_raises_after_recreating
           (fetched 101 (Body null_start_response)) (Some [closed_row])).
  reflexivity.
Defined.

Lemma completion_order_only_permutes_witness :
  (collect [room_esj; room_iri] one_timeout_net [0; 1]%nat []).1
  ≡ₚ (collect [room_esj; room_iri] one_timeout_net [1; 0]%nat []).1
  ∧ (collect [room_esj; room_iri] one_timeout_net [0; 1]%nat []).2
    ≡ₚ (collect [room_esj; room_iri] one_timeout_net [1; 0]%nat []).2.
Proof.
  apply (completion_order_only_permutes [room_esj; room_iri] one_timeout_net).
  apply perm_swap.
Defined.

Lemma row_count_independent_of_completion_order_witness :
  row_count (table_after
               (fetch_all_rooms_availability [room_esj; room_iri]
                  one_timeout_net [0; 1]%nat None))
  = row_count (table_after
                 (fetch_all_rooms_availability [room_esj; room_iri]
                    one_timeout_net [1; 0]%nat None)).
Proof.
  apply (row_count_independent_of_completion_order [room_esj; room_iri]
           one_timeout_net).
  apply perm_swap.
Defined.


Lemma total_outage_keeps_previous_table_witness :
  ∃ lines,
    main (Loaded [room_esj; room_iri]) outage_net [1; 0]%nat
      (Some [closed_row])
    = (Ret (), Some [closed_row],
       lines ++ [Printed "No availability data to store."])
    ∧ length lines = length [room_esj; room_iri]
    ∧ ∀ room, room ∈ [room_esj; room_iri] →
        ∃ line, line ∈ lines ∧ names_room line (id room).
Proof.
  apply (total_outage_keeps_previous_table [room_esj; room_iri] outage_net
           [1; 0]%nat (Some [closed_row])).
  - discriminate.
  - intros i room _. exact I.
  - apply perm_swap.
Defined.

Lemma room_ids_are_listed_rooms_in_order_witness :
  ∃ rows listed,
    (rs ← py_get sample_listing "rows" (PyList []); py_iter rs) = Ret rows
    ∧ Forall2 (λ row_entry rooms,
        (r ← py_get row_entry "row" (PyList []); py_iter r) = Ret rooms)
        rows listed
    ∧ [ (<["id" := PyInt 101]> (<["name" := PyStr "ESJ 0101"]> ∅)
           : gmap string pyval);
        <["id" := PyInt 202]> (<["name" := PyStr "IRB 0318"]> ∅) ]
      = omap (room_entry whole_nonzero) (concat listed).
Proof.
  apply (room_ids_are_listed_rooms_in_order whole_nonzero sample_listing).
  reflexivity.
Defined.

Lemma written_rooms_have_ids_witness :
  Ret () = Ret ()
  ∧ Forall (λ entry : gmap string pyval,
      dom entry = {["id"; "name"]}
      ∧ ∃ v, entry !! "id" = Some v ∧ py_truthy whole_nonzero v = true
             ∧ v ≠ PyNone ∧ v ≠ PyInt 0 ∧ v ≠ PyStr "")
      [ <["id" := PyInt 101]> (<["name" := PyStr "ESJ 0101"]> ∅);
        <["id" := PyInt 202]> (<["name" := PyStr "IRB 0318"]> ∅) ].
Proof.
  apply (written_rooms_have_ids whole_nonzero
           (Answered 200 (Ret sample_listing)) (Ret ()) _
           [Printed "Saved 2 room IDs to 'room_ids.json'"]).
  reflexivity.
Defined.

End FurtherInstances.

(** ** What the store writes for the sentinel and for missing fields *)

Section StoredValues.
Context `{RT : PyRuntime}.

Abbreviation record := (gmap string pyval).

Lemma Forall2_filter {A B} (R : A → B → Prop) (f : A → bool) (g : B → bool)
    (l : list A) (k : list B) :
  (∀ x y, R x y → f x = g y) →
  Forall2 R l k →
  Forall2 R (List.filter f l) (List.filter g k).
Proof.
  intros Hfg. induction 1 as [|x y l k Hxy _ IH]; [constructor|].
  cbn [List.filter]. rewrite (Hfg _ _ Hxy).
  destruct (g y); [by constructor | done].
Qed.

Lemma Forall2_compose {A B C} (R : A → B → Prop) (S : B → C → Prop)
    (l : list A) (k : list B) (m : list C) :
  Forall2 R l k → Forall2 S k m →
  Forall2 (λ x z, ∃ y, R x y ∧ S y z) l m.
Proof.
  intros HR. revert m. induction HR as [|x y l k Hxy _ IH]; intros m HS.
  - inversion HS. constructor.
  - inversion HS as [|y' z k' m' Hyz Hrest]; subst.
    constructor; [by exists y | by apply IH].
Qed.

(** The tuples kept by the loop match the surviving records one to one. *)
Lemma survivors_coerced (batch : list record) :
  Forall2 (λ item t, coerce_item item = Ret t)
    (List.filter survives batch) (omap coerced batch).
Proof.
  induction batch as [|item rest IH]; [constructor|].
  cbn [List.filter omap list_omap]. unfold survives at 1, coerced at 1.
  destruct (coerce_item item) as [t|e] eqn:Hc; [by constructor | done].
Qed.

(** The rows the store leaves match the surviving records of the batch one
    to one, in order: each row is the insertion of the coercion of its
    record. *)
Lemma store_rows_of_survivors (batch : list record) (db : database)
    (r : res ()) (rows : list row) (out : list log_line) :
  batch ≠ [] →
  rows ≠ [] →
  store_availability_to_db batch db = (r, Some rows, out) →
  Forall2 (λ item stored, ∃ t,
      coerce_item item = Ret t ∧ insert_row (row_id stored) t = Ret stored)
    (List.filter survives batch) rows.
Proof.
  destruct batch as [|item rest]; [done|]. intros _ Hrows.
  unfold store_availability_to_db.
  destruct (prepare_loop (item :: rest) []) as [[records|e] out'] eqn:Hp;
    [|by intros [= _ <- _]].
  apply prepare_loop_survivors in Hp as (-> & _ & _ & _).
  rewrite app_nil_l.
  pose proof (survivors_coerced (item :: rest)) as Hsurv. revert Hsurv.
  generalize (omap coerced (item :: rest)).
  intros [|t ts] Hsurv; [by intros [= _ <- _]|].
  destruct (executemany (t :: ts) []) as [rows'|e] eqn:He;
    [|by intros [= _ <- _]].
  intros [= _ <- _].
  apply executemany_rows in He as (new & -> & Hnew & _ & _).
  rewrite app_nil_l. by eapply Forall2_compose.
Qed.

(** The batch of a successful fetch matches the items of the response one
    to one, in order. *)
Lemma fetch_batch_of_items (space_id : Z) (data : pyval)
    (batch : list record) :
  fetch_single_room_availability space_id (Body data) = (Ret batch, []) →
  Forall2 (λ p rec, make_record space_id p.1 p.2 = Ret rec)
    (response_items data) batch.
Proof.
  intros (parts & -> & Hall)%fetch_unlogged%parse_response_Ret.
  unfold response_items.
  induction Hall as [|subject part subjects parts Hpart _ IH];
    [constructor|].
  cbn [fmap list_fmap concat]. apply Forall2_app; [|exact IH].
  apply subject_records_built in Hpart.
  clear -Hpart. induction Hpart as [|item rec items recs Hrec _ IH];
    [constructor|].
  cbn [fmap list_fmap]. by constructor.
Qed.

(** From the response to the table: the rows left by storing the batch of a
    successful fetch match, one to one and in order, the items of the
    response whose record survives the coercion. *)
Lemma fetch_store_rows (space_id : Z) (data : pyval) (batch : list record)
    (db : database) (r : res ()) (rows : list row) (out : list log_line) :
  fetch_single_room_availability space_id (Body data) = (Ret batch, []) →
  batch ≠ [] →
  rows ≠ [] →
  store_availability_to_db batch db = (r, Some rows, out) →
  Forall2 (λ p stored, ∃ rec t,
      make_record space_id p.1 p.2 = Ret rec
      ∧ coerce_item rec = Ret t
      ∧ insert_row (row_id stored) t = Ret stored)
    (List.filter (item_survives space_id) (response_items data)) rows.
Proof.
  intros Hfetch Hne Hrows Hstore.
  apply fetch_batch_of_items in Hfetch.
  apply (Forall2_filter _ (item_survives space_id) survives) in Hfetch.
  2: { intros p rec Hrec. unfold item_survives. by rewrite Hrec. }
  pose proof (store_rows_of_survivors _ _ _ _ _ Hne Hrows Hstore) as Hs.
  pose proof (Forall2_compose _ _ _ _ _ Hfetch Hs) as Hc.
  eapply Forall2_impl; [exact Hc|].
  intros p stored (rec & Hrec & t & Ht & Hins). by exists rec, t.
Qed.

(** C3. Of a non-empty batch that the store ends with rows in the table,
    the rows are those of the records that survive the coercion, one to one
    and in order, and a row holds NULL, never the number zero, in
    [time_start] when its record holds the sentinel ["N/A"] there; the same
    for [time_end] and for [status]. *)
Theorem store_writes_null_for_sentinel (batch : list record) (db : database)
    (r : res ()) (rows : list row) (out : list log_line) :
  batch ≠ [] →
  rows ≠ [] →
  store_availability_to_db batch db = (r, Some rows, out) →
  Forall2 null_for_sentinel (List.filter survives batch) rows.
Proof.
  intros Hne Hrows Hstore.
  pose proof (store_rows_of_survivors _ _ _ _ _ Hne Hrows Hstore) as Hs.
  eapply Forall2_impl; [exact Hs|].
  intros item stored (t & Hc & Hins).
  destruct (sentinel_coerces_to_null item t (row_id stored) stored Hc Hins)
    as (Hs1 & Hs2 & Hs3).
  split; [|split]; intros Hna.
  - by destruct (Hs1 Hna) as (_ & ? & ?).
  - by destruct (Hs2 Hna) as (_ & ? & ?).
  - by destruct (Hs3 Hna) as (_ & ? & ?).
Qed.

(** X3. From the response to the table: when the batch of a successful
    fetch is stored and rows are left in the table, the rows are those of
    the items of the response whose record survives the coercion, one to
    one and in order, and the row of an item without a [start] key holds
    NULL in [time_start]; likewise [end] for [time_end] and [type_id] for
    [status]. *)
Theorem missing_numbers_are_stored_as_null (space_id : Z) (data : pyval)
    (batch : list record) (db : database) (r : res ()) (rows : list row)
    (out : list log_line) :
  fetch_single_room_availability space_id (Body data) = (Ret batch, []) →
  batch ≠ [] →
  rows ≠ [] →
  store_availability_to_db batch db = (r, Some rows, out) →
  Forall2 null_for_missing
    (List.filter (item_survives space_id) (response_items data)) rows.
Proof.
  intros Hfetch Hne Hrows Hstore.
  pose proof (fetch_store_rows _ _ _ _ _ _ _ Hfetch Hne Hrows Hstore) as Hs.
  eapply Forall2_impl; [exact Hs|].
  intros [dt item] stored (rec & t & Hrec & Hc & Hins) m Hm.
  simpl in Hrec, Hm. subst item.
  exact (missing_numbers_coerce_to_null space_id dt m rec t (row_id stored)
           stored Hrec Hc Hins).
Qed.

(** X4. The text fields are treated differently: under the same
    conditions, the row of an item without an [itemName] key holds the text
    ["N/A"] as its event name, not NULL, and likewise [itemId2] for the
    additional details. *)
Theorem missing_texts_are_stored_as_sentinel (space_id : Z) (data : pyval)
    (batch : list record) (db : database) (r : res ()) (rows : list row)
    (out : list log_line) :
  fetch_single_room_availability space_id (Body data) = (Ret batch, []) →
  batch ≠ [] →
  rows ≠ [] →
  store_availability_to_db batch db = (r, Some rows, out) →
  Forall2 sentinel_for_missing
    (List.filter (item_survives space_id) (response_items data)) rows.
Proof.
  intros Hfetch Hne Hrows Hstore.
  pose proof (fetch_store_rows _ _ _ _ _ _ _ Hfetch Hne Hrows Hstore) as Hs.
  eapply Forall2_impl; [exact Hs|].
  intros [dt item] stored (rec & t & Hrec & Hc & Hins) m Hm.
  simpl in Hrec, Hm. subst item.
  exact (missing_texts_keep_sentinel space_id dt m rec t (row_id stored)
           stored Hrec Hc Hins).
Qed.

End StoredValues.

Section StoredValuesInstances.
#[local] Existing Instance reference_runtime.

Lemma store_writes_null_for_sentinel_witness :
  Forall2 null_for_sentinel
    (List.filter survives [closed_record; odd_status_record]) [closed_row]
  ∧ List.filter survives [closed_record; odd_status_record]
    = [closed_record]
  ∧ time_start closed_row = SqlNull.
Proof.
  split; [|split; reflexivity].
  apply (store_writes_null_for_sentinel [closed_record; odd_status_record]
           None (Ret ()) [closed_row]
           (printed_by (store_availability_to_db
                          [closed_record; odd_status_record] None))).
  - discriminate.
  - discriminate.
  - reflexivity.
Defined.

Lemma missing_numbers_are_stored_as_null_witness :
  Forall2 null_for_missing
    (List.filter (item_survives 101) (response_items bare_item_response))
    [bare_row]
  ∧ response_items bare_item_response
    = [(PyStr "2024-11-14", PyDict ∅)].
Proof.
  split; [|reflexivity].
  apply (missing_numbers_are_stored_as_null 101 bare_item_response
           [bare_record] (Some [closed_row]) (Ret ()) [bare_row]
           [Printed "Inserted 1 records into the database."]).
  - reflexivity.
  - discriminate.
  - discriminate.
  - reflexivity.
Defined.

Lemma missing_texts_are_stored_as_sentinel_witness :
  Forall2 sentinel_for_missing
    (List.filter (item_survives 101) (response_items bare_item_response))
    [bare_row]
  ∧ event_name bare_row = SqlText "N/A".
Proof.
  split; [|reflexivity].
  apply (missing_texts_are_stored_as_sentinel 101 bare_item_response
           [bare_record] (Some [closed_row]) (Ret ()) [bare_row]
           [Printed "Inserted 1 records into the database."]).
  - reflexivity.
  - discriminate.
  - discriminate.
  - reflexivity.
Defined.

End StoredValuesInstances.
